(** * Face enrollment and verification core of the student portal

    A shallow embedding of [features.py]: the enrollment encoder
    [get_face_encoding_from_photo] and the verifier [recognize_face],
    together with the serialization contract of a stored embedding
    (a flat buffer of native double-precision values).

    Python values are modelled as follows.
    - [bytes] objects are lists of [Byte.byte]; a parameter that may be
      [None] is an [option].
    - a one-dimensional float64 array is a list of binary64 floats
      (Rocq's primitive floats, which are IEEE 754 binary64).
    - a computation that may raise and that calls into the imaging and
      numeric libraries is a value of [Py]: the calls it made, in order,
      and either the returned value or the exception raised. *)

From Stdlib Require Import ZArith List String Bool Lia Floats.
From Stdlib Require Import Strings.Byte.
From Stdlib Require QArith.
Import ListNotations.

Local Open Scope string_scope.
Local Open Scope list_scope.

(** ** Python values *)

Definition bytes := list Byte.byte.

(** A one-dimensional [numpy.ndarray] of dtype float64. *)
Definition ndarray := list float.

(** Truth value of a [bytes]-or-[None] argument: [None] and [b''] are
    false, everything else is true. *)
Definition truthy (b : option bytes) : bool :=
  match b with
  | None => false
  | Some [] => false
  | Some (_ :: _) => true
  end.

(** [BytesIO(initial_bytes)]: the buffer holds the given bytes;
    [BytesIO(None)] is an empty buffer. *)
Definition BytesIO (b : option bytes) : bytes :=
  match b with
  | None => []
  | Some bs => bs
  end.

(** [len(l)] on a Python list or array. *)
Definition len {A} (l : list A) : nat := List.length l.

(** Exceptions deriving from [Exception]; the handlers of the program
    only format them with [str]. *)
Inductive exception : Type :=
  | ValueError (msg : string)
  | IndexError (msg : string)
  | TypeError (msg : string)
  | LibraryError (msg : string).

Definition str (e : exception) : string :=
  match e with
  | ValueError m | IndexError m | TypeError m | LibraryError m => m
  end.

Inductive outcome (A : Type) : Type :=
  | Return (a : A)
  | Raise (e : exception).
Arguments Return {A} a.
Arguments Raise {A} e.

(** ** Calls that leave the program *)

Inductive call : Type :=
  | Call_get_face_encoding_from_photo (photo_bytes : option bytes)
  | Call_load_image_file (file : bytes)
  | Call_face_encodings
  | Call_frombuffer (buffer : option bytes)
  | Call_compare_faces (known : list ndarray) (candidate : ndarray).

(** ** The monad of Python computations *)

Module Py.

Record t (A : Type) : Type := Build { trace : list call; result : outcome A }.
Arguments Build {A} trace result.
Arguments trace {A} _.
Arguments result {A} _.

Definition ret {A} (a : A) : t A := Build [] (Return a).

Definition raise {A} (e : exception) : t A := Build [] (Raise e).

Definition bind {A B} (m : t A) (k : A -> t B) : t B :=
  match result m with
  | Return a => Build (trace m ++ trace (k a)) (result (k a))
  | Raise e => Build (trace m) (Raise e)
  end.

(** [try: body  except Exception as e: handler e]. *)
Definition try_except {A} (body : t A) (handler : exception -> t A) : t A :=
  match result body with
  | Return a => body
  | Raise e => Build (trace body ++ trace (handler e)) (result (handler e))
  end.

(** A call into a library: recorded, then its outcome. *)
Definition extern {A} (c : call) (o : outcome A) : t A := Build [c] o.

(** Entering one of the program's own functions. *)
Definition enter (c : call) : t unit := Build [c] (Return tt).

(** [l[i]] on a Python list. *)
Definition index {A} (l : list A) (i : nat) : t A :=
  match nth_error l i with
  | Some a => ret a
  | None => raise (IndexError "list index out of range")
  end.

End Py.

Declare Scope py_scope.
Delimit Scope py_scope with py.
Notation "x <- m ;; k" := (Py.bind m (fun x => k))
  (at level 100, m at next level, right associativity) : py_scope.
Notation "' p <- m ;; k" := (Py.bind m (fun x => match x with p => k end))
  (at level 100, p pattern, m at next level, right associativity) : py_scope.
Notation "m ;;; k" := (Py.bind m (fun _ => k))
  (at level 100, right associativity) : py_scope.
Notation "'try' body 'except' e => handler" :=
  (Py.try_except body (fun e => handler))
  (at level 10, body at level 200, e name, handler at level 200) : py_scope.

(** ** Binary64 values as raw bytes

    A float64 item of an array buffer is the IEEE 754 binary64 bit
    pattern of the value (sign, 11 exponent bits, 52 fraction bits),
    laid out in the byte order of the machine. *)

Module Binary64.

Local Open Scope Z_scope.

Definition sign_bit (s : bool) : Z := if s then 0x8000000000000000 else 0.

(** The bit pattern of a value; every NaN is written as the default
    quiet NaN. *)
Definition bits_of_SF (x : spec_float) : Z :=
  match x with
  | S754_zero s => sign_bit s
  | S754_infinity s => sign_bit s + 0x7FF0000000000000
  | S754_nan => 0x7FF8000000000000
  | S754_finite s m e =>
      if 0x10000000000000 <=? Zpos m
      then sign_bit s + (e + 1075) * 0x10000000000000 + (Zpos m - 0x10000000000000)
      else sign_bit s + Zpos m
  end.

Definition SF_of_bits (z : Z) : spec_float :=
  let s := 0x8000000000000000 <=? z in
  let ex := (z / 0x10000000000000) mod 2048 in
  let mx := z mod 0x10000000000000 in
  if ex =? 0 then
    match mx with
    | Zpos m => S754_finite s m (-1074)
    | _ => S754_zero s
    end
  else if ex =? 2047 then
    if mx =? 0 then S754_infinity s else S754_nan
  else
    match mx + 0x10000000000000 with
    | Zpos m => S754_finite s m (ex - 1075)
    | _ => S754_nan
    end.

Definition to_bits (x : float) : Z := bits_of_SF (Prim2SF x).
Definition of_bits (z : Z) : float := SF2Prim (SF_of_bits z).

Definition byte_of_Z (z : Z) : Byte.byte :=
  match Byte.of_N (Z.to_N (z mod 256)) with
  | Some b => b
  | None => Byte.x00
  end.

Definition Z_of_byte (b : Byte.byte) : Z := Z.of_N (Byte.to_N b).

(** The [n] low-order bytes of [z], least significant first. *)
Fixpoint le_split (n : nat) (z : Z) : bytes :=
  match n with
  | O => []
  | S n' => byte_of_Z z :: le_split n' (z / 256)
  end.

Fixpoint le_combine (l : bytes) : Z :=
  match l with
  | [] => 0
  | b :: t => Z_of_byte b + 256 * le_combine t
  end.

(** [sys.byteorder]. *)
Inductive byteorder : Type := little | big.

Definition in_order (o : byteorder) (l : bytes) : bytes :=
  match o with
  | little => l
  | big => rev l
  end.

Definition pack (o : byteorder) (x : float) : bytes :=
  in_order o (le_split 8 (to_bits x)).

Definition unpack (o : byteorder) (item : bytes) : float :=
  of_bits (le_combine (in_order o item)).

End Binary64.

(** ** The parts of NumPy the program relies on *)

Module np.

Section Native.

Variable byteorder : Binary64.byteorder.

(** Modelled from the spec: the serialization of an embedding, which the
    enrollment screen performs with [ndarray.tobytes()] and which is not
    part of [features.py]: "a flat buffer of 128 native double-precision
    floating-point values, no header, no length prefix, no version
    tag". *)
Definition tobytes (a : ndarray) : bytes :=
  flat_map (Binary64.pack byteorder) a.

Fixpoint items (count : nat) (buf : bytes) : ndarray :=
  match count with
  | O => []
  | S count' =>
      Binary64.unpack byteorder (firstn 8 buf) :: items count' (skipn 8 buf)
  end.

(** Modelled from the spec: "Deserialize [stored_embedding_bytes] into a
    numeric vector using the exact inverse of the Encoder's
    serialization (raw little/native-endian double-precision floats, no
    length prefix)".  This is [np.frombuffer(buffer)] with its default
    [dtype=float]: the buffer is read as consecutive 8-byte items, and a
    buffer whose size is not a multiple of 8 is refused with a
    [ValueError]. *)
Definition frombuffer (buffer : option bytes) : outcome ndarray :=
  match buffer with
  | None =>
      Raise (TypeError "a bytes-like object is required, not 'NoneType'")
  | Some buf =>
      if (len buf mod 8 =? 0)%nat
      then Return (items (len buf / 8) buf)
      else Raise (ValueError "buffer size must be a multiple of element size")
  end.

End Native.

(** The eight running sums [r[0]], ..., [r[7]] of NumPy's pairwise
    summation. *)
Record lanes : Type :=
  Lanes { r0 : float; r1 : float; r2 : float; r3 : float;
          r4 : float; r5 : float; r6 : float; r7 : float }.

(** The unrolled loop: as long as eight more items are left, item [j] of
    the next eight is added to [r[j]]; what is left over is returned. *)
Fixpoint accumulate (r : lanes) (rest : ndarray) {struct rest} : lanes * ndarray :=
  match rest with
  | b0 :: b1 :: b2 :: b3 :: b4 :: b5 :: b6 :: b7 :: rest' =>
      accumulate
        (Lanes (r0 r + b0) (r1 r + b1) (r2 r + b2) (r3 r + b3)
               (r4 r + b4) (r5 r + b5) (r6 r + b6) (r7 r + b7))
        rest'
  | _ => (r, rest)
  end.

(** The sum of a block of at most 128 items.  Fewer than eight items
    are added one after the other, starting from [-0.0].  Otherwise the
    first eight items start the eight running sums, the unrolled loop
    runs, the running sums are added as
    [((r0 + r1) + (r2 + r3)) + ((r4 + r5) + (r6 + r7))], and the items
    left over are added to that, one after the other. *)
Definition block_sum (a : ndarray) : float :=
  match a with
  | a0 :: a1 :: a2 :: a3 :: a4 :: a5 :: a6 :: a7 :: rest =>
      let (r, tail) := accumulate (Lanes a0 a1 a2 a3 a4 a5 a6 a7) rest in
      fold_left PrimFloat.add tail
        (((r0 r + r1 r) + (r2 r + r3 r)) + ((r4 r + r5 r) + (r6 r + r7 r)))%float
  | _ => fold_left PrimFloat.add a (-0)%float
  end.

(** NumPy's pairwise summation of a contiguous run of float64 items: a
    run of more than 128 items is cut in two, the first part holding
    half of the items rounded down to a multiple of eight, and the sums
    of the two parts are added; a shorter run is a block.  [fuel] bounds
    the depth of the cuts; the length of the run is always enough. *)
Fixpoint pairwise_sum (fuel : nat) (a : ndarray) : float :=
  match fuel with
  | S fuel' =>
      if (128 <? len a)%nat then
        let n2 := (len a / 2 - (len a / 2) mod 8)%nat in
        (pairwise_sum fuel' (firstn n2 a) + pairwise_sum fuel' (skipn n2 a))%float
      else block_sum a
  | O => block_sum a
  end.

(** [np.add.reduce] along a row of float64 items, which is how
    [np.linalg.norm] adds the squares: the result starts as the identity
    [0.0], and the pairwise sum of the row is added to it. *)
Definition sum (a : ndarray) : float :=
  (0 + pairwise_sum (len a) a)%float.

(** [np.linalg.norm] of one row: the 2-norm, the square root of the sum
    of the squares. *)
Definition linalg_norm (a : ndarray) : float :=
  PrimFloat.sqrt (sum (map (fun x => (x * x)%float) a)).

(** [row - other] for a row of shape (1, n) and an array of shape (m,),
    under NumPy's broadcasting rule: the lengths must agree, or one of
    them must be 1, in which case its single item is repeated. *)
Definition subtract (row other : ndarray) : outcome ndarray :=
  if (len row =? len other)%nat then
    Return (map (fun p => (fst p - snd p)%float) (combine row other))
  else
    match row, other with
    | [x], _ => Return (map (fun y => (x - y)%float) other)
    | _, [y] => Return (map (fun x => (x - y)%float) row)
    | _, _ => Raise (ValueError "operands could not be broadcast together")
    end.

End np.

(** ** Comparison of embeddings *)

Fixpoint traverse {A B} (f : A -> outcome B) (l : list A) : outcome (list B) :=
  match l with
  | [] => Return []
  | a :: t =>
      match f a with
      | Raise e => Raise e
      | Return b =>
          match traverse f t with
          | Raise e => Raise e
          | Return bs => Return (b :: bs)
          end
      end
  end.

(** Modelled from the spec: "Compare the two embeddings using Euclidean
    distance".  This is [face_recognition.face_distance]: the norm of
    [known - face_to_compare] along each row, one distance per known
    embedding; the subtraction is NumPy's and broadcasts. *)
Definition face_distance (known : list ndarray) (face_to_compare : ndarray)
  : outcome (list float) :=
  traverse (fun row =>
              match np.subtract row face_to_compare with
              | Raise e => Raise e
              | Return d => Return (np.linalg_norm d)
              end) known.

(** Modelled from the spec: "match is declared when distance <= a fixed
    tolerance constant".  This is [face_recognition.compare_faces]. *)
Definition compare_faces (known : list ndarray) (face_to_check : ndarray)
    (tolerance : float) : outcome (list bool) :=
  match face_distance known face_to_check with
  | Raise e => Raise e
  | Return ds => Return (map (fun d => (d <=? tolerance)%float) ds)
  end.

(** ** The [face_recognition] package

    Image decoding and face detection are opaque: the program only
    depends on whether each call returns or raises, and on the list of
    embeddings returned, in the order the library produces them. *)

Record face_recognition_module : Type := {
  image : Type;
  load_image_file : bytes -> outcome image;
  face_encodings : image -> outcome (list ndarray)
}.

Section Features.

(** [FACE_RECOGNITION_AVAILABLE] is set once, when the module is
    imported: whether [import face_recognition] succeeded. *)
Variable FACE_RECOGNITION_AVAILABLE : bool.
Variable face_recognition : face_recognition_module.

(** The byte order of the machine, which fixes the layout of array
    buffers. *)
Variable byteorder : Binary64.byteorder.

Local Open Scope py_scope.

Definition get_face_encoding_from_photo (photo_bytes : option bytes)
  : Py.t (option ndarray * string) :=
  Py.enter (Call_get_face_encoding_from_photo photo_bytes) ;;;
  if negb FACE_RECOGNITION_AVAILABLE || negb (truthy photo_bytes) then
    Py.ret (None, "Face recognition is not available or no photo provided.")
  else
    try
      (image <- Py.extern (Call_load_image_file (BytesIO photo_bytes))
                  (load_image_file face_recognition (BytesIO photo_bytes)) ;;
       face_encodings <- Py.extern Call_face_encodings
                  (face_encodings face_recognition image) ;;
       if (0 <? len face_encodings)%nat then
         first <- Py.index face_encodings 0 ;;
         Py.ret (Some first, "Face encoding generated successfully.")
       else
         Py.ret (None, "No face found in the uploaded photo."))
    except e =>
      Py.ret (None, ("Error processing photo for face recognition: " ++ str e)%string).

Definition recognize_face (known_face_encoding_bytes current_photo_bytes : option bytes)
  : Py.t (bool * string) :=
  if negb FACE_RECOGNITION_AVAILABLE then
    Py.ret (false, "Face recognition is not available.")
  else if negb (truthy known_face_encoding_bytes) then
    Py.ret (false, "No registered face data found for this student.")
  else if negb (truthy current_photo_bytes) then
    Py.ret (false, "No current photo provided for attendance.")
  else
    try
      (known_face_encoding <- Py.extern (Call_frombuffer known_face_encoding_bytes)
                  (np.frombuffer byteorder known_face_encoding_bytes) ;;
       ' (current_face_encodings, message) <-
                  get_face_encoding_from_photo current_photo_bytes ;;
       match current_face_encodings with
       | None =>
           Py.ret (false, ("Could not detect face in current photo: " ++ message)%string)
       | Some current =>
           matches <- Py.extern (Call_compare_faces [known_face_encoding] current)
                  (compare_faces [known_face_encoding] current 0.5%float) ;;
           recognized <- Py.index matches 0 ;;
           if (recognized : bool) then
             Py.ret (true, "Face recognized successfully.")
           else
             Py.ret (false, "Face not recognized. Please try again.")
       end)
    except e =>
      Py.ret (false, ("Error during face recognition: " ++ str e)%string).

End Features.

(** ** Fixtures

    A stand-in for the library whose decoder and detector return fixed
    outcomes, and the vectors of the scenarios. *)

Definition stub_face_recognition (decoded : outcome unit)
    (detected : outcome (list ndarray)) : face_recognition_module :=
  {| image := unit;
     load_image_file := fun _ => decoded;
     face_encodings := fun _ => detected |}.

(** A library whose decoder rejects every file. *)
Definition undecodable : face_recognition_module :=
  stub_face_recognition (Raise (LibraryError "cannot identify image file"))
    (Return []).

(** A library that finds one face, with the given embedding. *)
Definition detects (embedding : ndarray) : face_recognition_module :=
  stub_face_recognition (Return tt) (Return [embedding]).

(** [np.zeros(n)] and [np.ones(n)]. *)
Definition zeros (n : nat) : ndarray := repeat 0%float n.
Definition ones (n : nat) : ndarray := repeat 1%float n.

(** The Euclidean distance between two embeddings of the same
    dimension, computed in binary64 arithmetic. *)
Definition euclidean_distance (a b : ndarray) : float :=
  PrimFloat.sqrt
    (np.sum (map (fun p => ((fst p - snd p) * (fst p - snd p))%float) (combine a b))).

(** The distance between two embeddings of 128 items as it comes out
    in binary64 arithmetic, every operation rounded to nearest: the
    differences are squared; the squares are added in eight interleaved
    running sums, square [i] going to running sum [i mod 8]; the running
    sums are added as [((l0 + l1) + (l2 + l3)) + ((l4 + l5) + (l6 + l7))];
    and the square root is taken. *)
Definition lane (j : nat) (squares : ndarray) : float :=
  fold_left (fun acc k => (acc + nth (j + 8 * k) squares 0)%float)
    (seq 1 15) (nth j squares 0%float).

Definition rounded_distance (a b : ndarray) : float :=
  let squares :=
    map (fun p => ((fst p - snd p) * (fst p - snd p))%float) (combine a b) in
  PrimFloat.sqrt
    (((lane 0 squares + lane 1 squares) + (lane 2 squares + lane 3 squares))
     + ((lane 4 squares + lane 5 squares) + (lane 6 squares + lane 7 squares))).

(** A stored array of one item stands for the array that repeats the
    item along the 128 items of an embedding. *)
Definition stretch (known : ndarray) : ndarray :=
  match known with
  | [x] => repeat x 128
  | _ => known
  end.

(** The exact value of a finite float, as a rational number. *)
Definition exact_value (x : float) : QArith_base.Q :=
  match Prim2SF x with
  | S754_finite s m e =>
      QArith_base.Qmult
        (QArith_base.inject_Z (if s then Zneg m else Zpos m))
        (QArith_base.Qpower (QArith_base.inject_Z 2) e)
  | _ => QArith_base.inject_Z 0
  end.

(** The square of the Euclidean distance between two vectors of the
    same dimension, in exact arithmetic; vectors of different dimensions
    have no distance. *)
Definition exact_squared_distance (a b : ndarray) : option QArith_base.Q :=
  if (len a =? len b)%nat then
    Some (fold_right
            (fun p acc =>
               QArith_base.Qplus
                 (QArith_base.Qmult
                    (QArith_base.Qminus (exact_value (fst p)) (exact_value (snd p)))
                    (QArith_base.Qminus (exact_value (fst p)) (exact_value (snd p))))
                 acc)
            (QArith_base.inject_Z 0) (combine a b))
  else None.

(** Vectors at the edge of the tolerance: sixteen items just above 1/8,
    and twenty-five items equal to the float nearest to 1/10, each
    followed by zeros up to 128 items. *)
Definition sixteen_eighths : ndarray :=
  repeat 0x1.0000000000001p-3%float 16 ++ repeat 0%float 112.
Definition twenty_five_tenths : ndarray :=
  repeat 0x1.999999999999ap-4%float 25 ++ repeat 0%float 103.

(** The decision of a verification, when it returned. *)
Definition decision (r : Py.t (bool * string)) : option bool :=
  match Py.result r with
  | Return (matched, _) => Some matched
  | Raise _ => None
  end.

(** ** The payment stub of [features.py] *)

(** Python numbers: [int] and [float]. *)
Inductive number : Type :=
  | Int (z : Z)
  | Float (f : float).

(** Truth value of a number-or-[None]: [None], [0], [0.0] and [-0.0]
    are false; every other number, NaN included, is true. *)
Definition truthy_number (x : option number) : bool :=
  match x with
  | None => false
  | Some (Int z) => negb (z =? 0)%Z
  | Some (Float f) => negb (f =? 0)%float
  end.

(** Truth value of a [str]-or-[None]. *)
Definition truthy_str (s : option string) : bool :=
  match s with
  | None => false
  | Some EmptyString => false
  | Some (String _ _) => true
  end.

(** [x <= 0]; [None] is not ordered against an [int]. *)
Definition le_zero (x : option number) : Py.t bool :=
  match x with
  | None =>
      Py.raise (TypeError "'<=' not supported between instances of 'NoneType' and 'int'")
  | Some (Int z) => Py.ret (z <=? 0)%Z
  | Some (Float f) => Py.ret (f <=? 0)%float
  end.

(** [random.choice(seq)]: the item at the index the generator draws
    below [len(seq)]; [draw] is the generator's next output. *)
Definition random_choice {A} (draw : nat) (seq : list A) : Py.t A :=
  if (len seq =? 0)%nat
  then Py.raise (IndexError "Cannot choose from an empty sequence")
  else Py.index seq (draw mod len seq).

Section Payment.

(** What the module-level random generator yields at this call. *)
Variable draw : nat.

Local Open Scope py_scope.

Definition process_payment (amount : option number) (token : option string)
  : Py.t (string * string) :=
  if negb (truthy_number amount) || negb (truthy_str token) then
    Py.ret ("failure", "Invalid payment request")
  else
    nonpositive <- le_zero amount ;;
    if (nonpositive : bool) then
      Py.ret ("failure", "Invalid amount")
    else
      status <- random_choice draw ["success"; "failure"] ;;
      let message :=
        if String.eqb status "success" then "Payment successful" else "Payment failed" in
      Py.ret (status, message).

End Payment.

(** ** [utils.py] *)

Definition validate_input
    (name roll_no email slot contact course favorite_teacher : option string)
    (photo : option bytes) : option string :=
  if negb (truthy_str name) then Some "Please enter your name."
  else if negb (truthy_str roll_no) then Some "Please enter your roll number."
  else if negb (truthy_str email) then Some "Please enter your email."
  else if negb (truthy_str slot) then Some "Please enter your slot."
  else if negb (truthy_str contact) then Some "Please enter your contact number."
  else if negb (truthy_str course) then Some "Please select a course."
  else if negb (truthy_str favorite_teacher) then Some "Please select your favorite teacher."
  else if negb (truthy photo) then Some "Please upload a photo."
  else None.

Module Course.

Record t : Type := { name : string }.

(** [marks] is an [int], as the [results.marks] column holds. *)
Definition get_grade (self : t) (marks : Z) : string :=
  if (marks >=? 90)%Z then "A"
  else if (marks >=? 80)%Z then "B"
  else if (marks >=? 70)%Z then "C"
  else if (marks >=? 60)%Z then "D"
  else "F".

End Course.

(** The fields of the registration form, in the order they are checked,
    each with whether it is filled in and the message asking for it. *)
Definition form_fields
    (name roll_no email slot contact course favorite_teacher : option string)
    (photo : option bytes) : list (bool * string) :=
  [ (truthy_str name, "Please enter your name.");
    (truthy_str roll_no, "Please enter your roll number.");
    (truthy_str email, "Please enter your email.");
    (truthy_str slot, "Please enter your slot.");
    (truthy_str contact, "Please enter your contact number.");
    (truthy_str course, "Please select a course.");
    (truthy_str favorite_teacher, "Please select your favorite teacher.");
    (truthy photo, "Please upload a photo.") ].

(** The letter grades, from worst to best. *)
Definition grade_rank (grade : string) : nat :=
  if String.eqb grade "A" then 4
  else if String.eqb grade "B" then 3
  else if String.eqb grade "C" then 2
  else if String.eqb grade "D" then 1
  else 0.

(** Numbers below zero. *)
Definition is_negative (x : option number) : bool :=
  match x with
  | None => false
  | Some (Int z) => (z <? 0)%Z
  | Some (Float f) => (f <? 0)%float
  end.

(** Numbers above zero, and the float NaN, which is neither equal to
    zero nor ordered against it. *)
Definition is_positive_or_nan (x : option number) : bool :=
  match x with
  | None => false
  | Some (Int z) => (0 <? z)%Z
  | Some (Float f) => (0 <? f)%float || PrimFloat.is_nan f
  end.

(** ** [database.py]

    The SQLite engine is opaque: each call of the [sqlite3] package
    either returns or raises, and the program is described by the calls
    it makes, in order, and by what it returns or raises. *)

Inductive db_call : Type :=
  | Db_connect (database : string)
  | Db_cursor
  | Db_execute (sql : string) (parameters : list string)
  | Db_fetchone
  | Db_commit
  | Db_rollback
  | Db_close.

Module Db.

Record t (A : Type) : Type := Build { trace : list db_call; result : outcome A }.
Arguments Build {A} trace result.
Arguments trace {A} _.
Arguments result {A} _.

Definition ret {A} (a : A) : t A := Build [] (Return a).

Definition raise {A} (e : exception) : t A := Build [] (Raise e).

Definition bind {A B} (m : t A) (k : A -> t B) : t B :=
  match result m with
  | Return a => Build (trace m ++ trace (k a)) (result (k a))
  | Raise e => Build (trace m) (Raise e)
  end.

(** [try: body  except Exception as e: handler e]. *)
Definition try_except {A} (body : t A) (handler : exception -> t A) : t A :=
  match result body with
  | Return a => body
  | Raise e => Build (trace body ++ trace (handler e)) (result (handler e))
  end.

(** [try: body  finally: cleanup]: the cleanup runs on every path, and
    an exception it raises replaces the outcome of the body. *)
Definition finally {A} (body : t A) (cleanup : t unit) : t A :=
  Build (trace body ++ trace cleanup)
    match result cleanup with
    | Return _ => result body
    | Raise e => Raise e
    end.

Definition extern {A} (c : db_call) (o : outcome A) : t A := Build [c] o.

(** [row[i]] on a tuple. *)
Definition index {A} (l : list A) (i : nat) : t A :=
  match nth_error l i with
  | Some a => ret a
  | None => raise (IndexError "tuple index out of range")
  end.

End Db.

Declare Scope db_scope.
Delimit Scope db_scope with db.
Notation "x <- m ;; k" := (Db.bind m (fun x => k))
  (at level 100, m at next level, right associativity) : db_scope.
Notation "m ;;; k" := (Db.bind m (fun _ => k))
  (at level 100, right associativity) : db_scope.
Notation "'try' body 'except' e => handler" :=
  (Db.try_except body (fun e => handler))
  (at level 10, body at level 200, e name, handler at level 200) : db_scope.

Module sqlite3.

(** A row is a tuple of column values; [None] stands for SQL NULL. *)
Definition row := list (option string).

Record module : Type := {
  connect : string -> outcome unit;
  cursor : outcome unit;
  execute : string -> list string -> outcome unit;
  fetchone : outcome (option row);
  commit : outcome unit;
  rollback : outcome unit;
  close : outcome unit
}.

End sqlite3.

Section Database.

Variable sqlite : sqlite3.module.

Local Open Scope db_scope.

(** [with get_db_connection() as cursor: body]: the generator runs up
    to its [yield], the body of the [with] statement runs in its place,
    and the generator resumes, with the exception of the body if it
    raised one. *)
Definition get_db_connection {A} (body : Db.t A) : Db.t A :=
  Db.extern (Db_connect "student_portal.db")
    (sqlite3.connect sqlite "student_portal.db") ;;;
  Db.extern Db_cursor (sqlite3.cursor sqlite) ;;;
  Db.finally
    (try
       (yielded <- body ;;
        Db.extern Db_commit (sqlite3.commit sqlite) ;;;
        Db.ret yielded)
     except e =>
       (Db.extern Db_rollback (sqlite3.rollback sqlite) ;;;
        Db.raise e))
    (Db.extern Db_close (sqlite3.close sqlite)).

Definition get_user_role (username : string) : Db.t (option string) :=
  get_db_connection
    (Db.extern (Db_execute "SELECT role FROM users WHERE username = ?" [username])
       (sqlite3.execute sqlite "SELECT role FROM users WHERE username = ?" [username]) ;;;
     result <- Db.extern Db_fetchone (sqlite3.fetchone sqlite) ;;
     match result with
     | Some ((_ :: _) as found) => Db.index found 0
     | Some [] => Db.ret None
     | None => Db.ret None
     end).

End Database.

(** A database engine whose calls all return, and whose query finds the
    given row. *)
Definition sqlite_finding (found : option sqlite3.row) : sqlite3.module :=
  {| sqlite3.connect := fun _ => Return tt;
     sqlite3.cursor := Return tt;
     sqlite3.execute := fun _ _ => Return tt;
     sqlite3.fetchone := Return found;
     sqlite3.commit := Return tt;
     sqlite3.rollback := Return tt;
     sqlite3.close := Return tt |}.

(** A database engine on which no cursor can be opened. *)
Definition sqlite_without_cursor : sqlite3.module :=
  {| sqlite3.connect := fun _ => Return tt;
     sqlite3.cursor := Raise (LibraryError "unable to open database file");
     sqlite3.execute := fun _ _ => Return tt;
     sqlite3.fetchone := Return None;
     sqlite3.commit := Return tt;
     sqlite3.rollback := Return tt;
     sqlite3.close := Return tt |}.

(** A database engine that refuses every statement. *)
Definition sqlite_refusing_statements : sqlite3.module :=
  {| sqlite3.connect := fun _ => Return tt;
     sqlite3.cursor := Return tt;
     sqlite3.execute := fun _ _ => Raise (LibraryError "no such table: users");
     sqlite3.fetchone := Return None;
     sqlite3.commit := Return tt;
     sqlite3.rollback := Return tt;
     sqlite3.close := Return tt |}.

(** * Properties *)

(** ** The binary64 bit pattern *)

Module Binary64Facts.

Import Binary64.
Local Open Scope Z_scope.

Lemma digits2_pos_size (m : positive) : digits2_pos m = Pos.size m.
Proof. induction m; simpl; congruence. Qed.

Lemma digits2_pos_bounds (m : positive) :
  2 ^ (Zpos (digits2_pos m) - 1) <= Zpos m < 2 ^ Zpos (digits2_pos m).
Proof.
  rewrite digits2_pos_size.
  pose proof (Pos.size_gt m) as Hgt.
  pose proof (Pos.size_le m) as Hle.
  apply Pos2Z.pos_lt_pos in Hgt.
  apply Pos2Z.pos_le_pos in Hle.
  rewrite Pos2Z.inj_pow in Hgt, Hle.
  change (Zpos m~0) with (2 * Zpos m) in Hle.
  split; [|exact Hgt].
  replace (Zpos (Pos.size m)) with (Z.succ (Zpos (Pos.size m) - 1)) in Hle by lia.
  rewrite Z.pow_succ_r in Hle by lia.
  lia.
Qed.

(** A valid finite value is either normal, with a 53-bit mantissa, or
    subnormal, with the least exponent. *)
Lemma valid_finite_cases (s : bool) (m : positive) (e : Z) :
  valid_binary (S754_finite s m e) = true ->
  (0x10000000000000 <= Zpos m < 0x20000000000000 /\ -1074 <= e <= 971)
  \/ (Zpos m < 0x10000000000000 /\ e = -1074).
Proof.
  unfold SpecFloat.valid_binary, bounded, canonical_mantissa, fexp, emin, prec, emax.
  intros H. apply andb_true_iff in H as [Hc Hb].
  apply Z.eqb_eq in Hc. apply Z.leb_le in Hb.
  pose proof (digits2_pos_bounds m) as [Hlo Hhi].
  set (d := Zpos (digits2_pos m)) in *.
  assert (Hd : 0 < d) by (unfold d; lia).
  destruct (Z_lt_le_dec d 53) as [Hlt | Hge].
  - right. split; [|lia].
    apply Z.lt_le_trans with (1 := Hhi).
    change 0x10000000000000 with (2 ^ 52).
    apply Z.pow_le_mono_r; lia.
  - left. assert (d = 53) by lia.
    replace d with 53 in * by lia.
    change (2 ^ (53 - 1)) with 0x10000000000000 in Hlo.
    change (2 ^ 53) with 0x20000000000000 in Hhi.
    lia.
Qed.

Lemma SF_of_bits_of_SF (x : spec_float) :
  valid_binary x = true -> SF_of_bits (bits_of_SF x) = x.
Proof.
  destruct x as [s | s | | s m e]; intros Hv.
  - destruct s; reflexivity.
  - destruct s; reflexivity.
  - reflexivity.
  - apply valid_finite_cases in Hv.
    unfold bits_of_SF, SF_of_bits.
    destruct Hv as [[Hm He] | [Hm He]].
    + destruct (Z.leb_spec 0x10000000000000 (Zpos m)); [|lia].
      set (z := sign_bit s + (e + 1075) * 0x10000000000000 + (Zpos m - 0x10000000000000)).
      assert (Hs : (0x8000000000000000 <=? z) = s)
        by (unfold z, sign_bit; destruct s;
            [apply Z.leb_le | apply Z.leb_gt]; lia).
      assert (Hex : (z / 0x10000000000000) mod 2048 = e + 1075)
        by (unfold z, sign_bit; destruct s; Z.div_mod_to_equations; lia).
      assert (Hmx : z mod 0x10000000000000 = Zpos m - 0x10000000000000)
        by (unfold z, sign_bit; destruct s; Z.div_mod_to_equations; lia).
      cbv zeta. rewrite Hs, Hex, Hmx.
      destruct (Z.eqb_spec (e + 1075) 0); [lia|].
      destruct (Z.eqb_spec (e + 1075) 2047); [lia|].
      replace (Zpos m - 0x10000000000000 + 0x10000000000000) with (Zpos m) by lia.
      f_equal. lia.
    + destruct (Z.leb_spec 0x10000000000000 (Zpos m)); [lia|].
      set (z := sign_bit s + Zpos m).
      assert (Hs : (0x8000000000000000 <=? z) = s)
        by (unfold z, sign_bit; destruct s;
            [apply Z.leb_le | apply Z.leb_gt]; lia).
      assert (Hex : (z / 0x10000000000000) mod 2048 = 0)
        by (unfold z, sign_bit; destruct s; Z.div_mod_to_equations; lia).
      assert (Hmx : z mod 0x10000000000000 = Zpos m)
        by (unfold z, sign_bit; destruct s; Z.div_mod_to_equations; lia).
      cbv zeta. rewrite Hs, Hex, Hmx. simpl. now subst e.
Qed.

Lemma bits_of_SF_range (x : spec_float) :
  valid_binary x = true -> 0 <= bits_of_SF x < 0x10000000000000000.
Proof.
  destruct x as [s | s | | s m e]; intros Hv.
  - destruct s; simpl; lia.
  - destruct s; simpl; lia.
  - simpl; lia.
  - apply valid_finite_cases in Hv. unfold bits_of_SF, sign_bit.
    destruct Hv as [[Hm He] | [Hm He]];
      destruct (Z.leb_spec 0x10000000000000 (Zpos m)); destruct s; lia.
Qed.

Lemma of_bits_to_bits (x : float) : of_bits (to_bits x) = x.
Proof.
  unfold of_bits, to_bits.
  rewrite SF_of_bits_of_SF by apply Prim2SF_valid.
  apply SF2Prim_Prim2SF.
Qed.

Lemma to_bits_range (x : float) : 0 <= to_bits x < 0x10000000000000000.
Proof. apply bits_of_SF_range, Prim2SF_valid. Qed.

Lemma Z_of_byte_of_Z (z : Z) : Z_of_byte (byte_of_Z z) = z mod 256.
Proof.
  unfold Z_of_byte, byte_of_Z.
  assert (Hr : 0 <= z mod 256 < 256) by (apply Z.mod_pos_bound; lia).
  destruct (Byte.of_N (Z.to_N (z mod 256))) as [b|] eqn:Hb.
  - apply Byte.to_of_N in Hb. rewrite Hb. lia.
  - apply Byte.of_N_None_iff in Hb. lia.
Qed.

Lemma length_le_split (n : nat) (z : Z) : len (le_split n z) = n.
Proof.
  unfold len. revert z; induction n; intros z; simpl; [reflexivity | now rewrite IHn].
Qed.

Lemma le_combine_split (n : nat) (z : Z) :
  le_combine (le_split n z) = z mod 256 ^ Z.of_nat n.
Proof.
  revert z; induction n as [|n IH]; intros z.
  - simpl. now rewrite Z.mod_1_r.
  - cbn [le_split le_combine].
    rewrite IH, Z_of_byte_of_Z, Nat2Z.inj_succ, Z.pow_succ_r by lia.
    symmetry. apply Z.rem_mul_r; [lia | apply Z.pow_pos_nonneg; lia].
Qed.

Lemma in_order_involutive (o : byteorder) (l : bytes) :
  in_order o (in_order o l) = l.
Proof. destruct o; simpl; [reflexivity | apply rev_involutive]. Qed.

Lemma length_pack (o : byteorder) (x : float) : len (pack o x) = 8%nat.
Proof.
  unfold pack, len. destruct o; cbn [in_order];
    rewrite ?length_rev; apply length_le_split.
Qed.

(** Packing a value and reading the eight bytes back gives the value. *)
Lemma unpack_pack (o : byteorder) (x : float) : unpack o (pack o x) = x.
Proof.
  unfold unpack, pack.
  rewrite in_order_involutive, le_combine_split.
  change (256 ^ Z.of_nat 8) with 0x10000000000000000.
  rewrite Z.mod_small by apply to_bits_range.
  apply of_bits_to_bits.
Qed.

End Binary64Facts.

(** ** Array buffers *)

Module npFacts.

Lemma len_tobytes (o : Binary64.byteorder) (a : ndarray) :
  len (np.tobytes o a) = (8 * len a)%nat.
Proof.
  unfold np.tobytes, len.
  induction a as [|x a IH]; simpl; [reflexivity|].
  rewrite length_app, IH. pose proof (Binary64Facts.length_pack o x) as Hlen.
  unfold len in Hlen. lia.
Qed.

Lemma items_tobytes (o : Binary64.byteorder) (a : ndarray) :
  np.items o (len a) (np.tobytes o a) = a.
Proof.
  unfold np.tobytes, len.
  induction a as [|x a IH]; [reflexivity|].
  cbn [List.length flat_map np.items].
  pose proof (Binary64Facts.length_pack o x) as Hlen. unfold len in Hlen.
  rewrite firstn_app, skipn_app, Hlen, Nat.sub_diag.
  rewrite firstn_all2, skipn_all2 by lia.
  cbn [firstn skipn app]. rewrite app_nil_r, Binary64Facts.unpack_pack.
  now rewrite IH.
Qed.

Lemma frombuffer_tobytes (o : Binary64.byteorder) (a : ndarray) :
  np.frombuffer o (Some (np.tobytes o a)) = Return a.
Proof.
  unfold np.frombuffer. rewrite len_tobytes.
  replace ((8 * len a) mod 8)%nat with 0%nat
    by (symmetry; rewrite Nat.mul_comm; apply Nat.Div0.mod_mul).
  replace ((8 * len a) / 8)%nat with (len a)
    by (symmetry; rewrite Nat.mul_comm; apply Nat.div_mul; lia).
  cbn [Nat.eqb]. now rewrite items_tobytes.
Qed.

End npFacts.

(** ** Pairwise summation *)

Module SumFacts.

Import np.

Lemma accumulate_step (r : lanes) (b0 b1 b2 b3 b4 b5 b6 b7 : float) (rest : ndarray) :
  accumulate r (b0 :: b1 :: b2 :: b3 :: b4 :: b5 :: b6 :: b7 :: rest)
  = accumulate
      (Lanes (r0 r + b0) (r1 r + b1) (r2 r + b2) (r3 r + b3)
             (r4 r + b4) (r5 r + b5) (r6 r + b6) (r7 r + b7))
      rest.
Proof. reflexivity. Qed.

Lemma accumulate_short (r : lanes) (rest : ndarray) :
  (len rest < 8)%nat -> accumulate r rest = (r, rest).
Proof.
  unfold len. intros Hshort.
  do 8 (destruct rest as [| ? rest]; [reflexivity|]).
  cbn in Hshort. lia.
Qed.

(** A list is shorter than eight items or begins with eight items. *)
Lemma eight_or_fewer (a : ndarray) :
  (len a < 8)%nat
  \/ exists b0 b1 b2 b3 b4 b5 b6 b7 rest,
      a = b0 :: b1 :: b2 :: b3 :: b4 :: b5 :: b6 :: b7 :: rest.
Proof.
  unfold len.
  do 8 (destruct a as [| ? a]; [left; cbn; lia|]).
  right. repeat eexists.
Qed.

Section Closed.

(** A property of floats that addition keeps. *)
Variable P : float -> Prop.
Hypothesis P_add : forall x y : float, P x -> P y -> P (x + y)%float.

Definition lanes_all (r : lanes) : Prop :=
  P (r0 r) /\ P (r1 r) /\ P (r2 r) /\ P (r3 r)
  /\ P (r4 r) /\ P (r5 r) /\ P (r6 r) /\ P (r7 r).

Lemma fold_left_add_closed (a : ndarray) (acc : float) :
  P acc -> Forall P a -> P (fold_left PrimFloat.add a acc).
Proof.
  intros Hacc Ha. revert acc Hacc.
  induction Ha as [| x a Hx _ IH]; intros acc Hacc; [exact Hacc|].
  cbn [fold_left]. apply IH. now apply P_add.
Qed.

Lemma accumulate_closed (n : nat) :
  forall (rest : ndarray) (r : lanes),
    (len rest <= n)%nat ->
    lanes_all r -> Forall P rest ->
    lanes_all (fst (accumulate r rest)) /\ Forall P (snd (accumulate r rest)).
Proof.
  induction n as [| n IH]; intros rest r Hlen Hr Hrest.
  - rewrite accumulate_short by lia. now split.
  - destruct (eight_or_fewer rest)
      as [Hshort | (b0 & b1 & b2 & b3 & b4 & b5 & b6 & b7 & rest' & ->)].
    + rewrite accumulate_short by assumption. now split.
    + rewrite accumulate_step.
      repeat match goal with
             | H : Forall P (_ :: _) |- _ => inversion_clear H
             end.
      destruct Hr as (Hr0 & Hr1 & Hr2 & Hr3 & Hr4 & Hr5 & Hr6 & Hr7).
      apply IH; [unfold len in *; cbn in Hlen; lia | | assumption].
      unfold lanes_all; cbn; repeat split; now apply P_add.
Qed.

Lemma block_sum_closed (a : ndarray) :
  P (-0)%float -> Forall P a -> P (block_sum a).
Proof.
  intros Hzero Ha.
  destruct (eight_or_fewer a)
    as [Hshort | (b0 & b1 & b2 & b3 & b4 & b5 & b6 & b7 & rest & ->)].
  - replace (block_sum a) with (fold_left PrimFloat.add a (-0)%float).
    + now apply fold_left_add_closed.
    + unfold len in Hshort.
      do 8 (destruct a as [| ? a]; [reflexivity|]). cbn in Hshort. lia.
  - unfold block_sum.
    repeat match goal with
           | H : Forall P (_ :: _) |- _ => inversion_clear H
           end.
    destruct (accumulate_closed (len rest) rest (Lanes b0 b1 b2 b3 b4 b5 b6 b7))
      as [Hr Htail]; [lia | unfold lanes_all; cbn; tauto | assumption |].
    destruct (accumulate (Lanes b0 b1 b2 b3 b4 b5 b6 b7) rest) as [r tail].
    cbn [fst snd] in Hr, Htail.
    destruct Hr as (Hr0 & Hr1 & Hr2 & Hr3 & Hr4 & Hr5 & Hr6 & Hr7).
    apply fold_left_add_closed; [|assumption].
    repeat apply P_add; assumption.
Qed.

Lemma Forall_firstn_skipn (n : nat) :
  forall a : ndarray,
    Forall P a -> Forall P (firstn n a) /\ Forall P (skipn n a).
Proof.
  induction n as [| n IH]; intros a Ha; [now split|].
  destruct Ha as [| x a Hx Ha]; [now split|].
  destruct (IH a Ha) as [Hfirst Hskip].
  cbn [firstn skipn]. split; [now constructor | assumption].
Qed.

Lemma pairwise_sum_closed (fuel : nat) :
  forall a : ndarray,
    P (-0)%float -> Forall P a -> P (pairwise_sum fuel a).
Proof.
  induction fuel as [| fuel IH]; intros a Hzero Ha; cbn [pairwise_sum].
  - now apply block_sum_closed.
  - destruct (128 <? len a)%nat.
    + apply P_add; apply IH; auto; now apply Forall_firstn_skipn.
    + now apply block_sum_closed.
Qed.

End Closed.

(** The sum of zeros is zero. *)
Lemma sum_of_zeros (a : ndarray) :
  Forall (fun x => x = 0%float) a -> sum a = 0%float.
Proof.
  intros Ha. unfold sum.
  assert (Hp : pairwise_sum (len a) a = 0%float
               \/ pairwise_sum (len a) a = (-0)%float).
  { apply (pairwise_sum_closed (fun x => x = 0%float \/ x = (-0)%float)).
    - intros x y [-> | ->] [-> | ->]; [left | left | left | right]; reflexivity.
    - now right.
    - eapply Forall_impl; [|exact Ha]. intros x Hx; now left. }
  destruct Hp as [-> | ->]; reflexivity.
Qed.

(** More fuel than the length of the run changes nothing: the cuts end
    before the fuel does. *)
Lemma pairwise_sum_enough_fuel (fuel : nat) :
  forall (fuel' : nat) (a : ndarray),
    (len a <= fuel)%nat -> (len a <= fuel')%nat ->
    pairwise_sum fuel a = pairwise_sum fuel' a.
Proof.
  induction fuel as [| fuel IH]; intros fuel' a Hfuel Hfuel'.
  - assert (Hempty : len a = 0%nat) by lia.
    destruct fuel'; cbn [pairwise_sum]; [reflexivity|].
    now rewrite Hempty.
  - destruct fuel' as [| fuel'].
    + assert (Hempty : len a = 0%nat) by lia.
      cbn [pairwise_sum]. now rewrite Hempty.
    + cbn [pairwise_sum].
      destruct (Nat.ltb_spec 128 (len a)) as [Hlong | Hshort]; [|reflexivity].
      set (n2 := (len a / 2 - (len a / 2) mod 8)%nat).
      assert (Hn2 : (0 < n2 < len a)%nat).
      { unfold n2.
        pose proof (Nat.div_mod_eq (len a) 2) as Hhalf.
        pose proof (Nat.mod_upper_bound (len a) 2 ltac:(lia)) as Hrem.
        pose proof (Nat.mod_upper_bound (len a / 2) 8 ltac:(lia)) as Hrem8.
        lia. }
      unfold len in *.
      f_equal; apply IH; rewrite ?length_firstn, ?length_skipn; lia.
Qed.

(** The sum of 128 items, lane by lane. *)
Lemma pairwise_sum_128 (s : ndarray) :
  len s = 128%nat ->
  pairwise_sum (len s) s
  = (((lane 0 s + lane 1 s) + (lane 2 s + lane 3 s))
     + ((lane 4 s + lane 5 s) + (lane 6 s + lane 7 s)))%float.
Proof.
  unfold len. intros Hlen. rewrite Hlen.
  do 128 (destruct s as [| ? s]; [discriminate Hlen|]).
  destruct s; [|discriminate Hlen].
  reflexivity.
Qed.

(** Adding a float to [0.0] gives the float back, except that [-0.0]
    becomes [0.0]. *)
Lemma add_zero_l (t : float) : (0 + t)%float = t \/ t = (-0)%float.
Proof.
  destruct (Prim2SF t) as [[|] | s | | s m e] eqn:Ht.
  - right. rewrite <- (SF2Prim_Prim2SF t), Ht. reflexivity.
  - left. apply Prim2SF_inj. rewrite add_spec, Ht. reflexivity.
  - left. apply Prim2SF_inj. rewrite add_spec, Ht. reflexivity.
  - left. apply Prim2SF_inj. rewrite add_spec, Ht. reflexivity.
  - left. apply Prim2SF_inj. rewrite add_spec, Ht. reflexivity.
Qed.

(** Starting the sum from [0.0] does not change on which side of a
    tolerance the norm falls. *)
Lemma sqrt_add_zero_within (t tolerance : float) :
  (PrimFloat.sqrt (0 + t) <=? tolerance)%float
  = (PrimFloat.sqrt t <=? tolerance)%float.
Proof.
  destruct (add_zero_l t) as [-> | ->]; [reflexivity|].
  rewrite !leb_spec.
  destruct (Prim2SF tolerance) as [s | s | | s m e]; reflexivity.
Qed.

End SumFacts.

(** ** Results of monadic computations *)

Module PyFacts.

Lemma result_bind {A B} (m : Py.t A) (k : A -> Py.t B) :
  Py.result (Py.bind m k) =
  match Py.result m with
  | Return a => Py.result (k a)
  | Raise e => Raise e
  end.
Proof. unfold Py.bind. now destruct (Py.result m). Qed.

Lemma result_try_except {A} (body : Py.t A) (handler : exception -> Py.t A) :
  Py.result (Py.try_except body handler) =
  match Py.result body with
  | Return a => Return a
  | Raise e => Py.result (handler e)
  end.
Proof. unfold Py.try_except. now destruct (Py.result body) eqn:E. Qed.

(** The calls of a sequence begin with those of its first step. *)
Lemma trace_bind_prefix {A B} (m : Py.t A) (k : A -> Py.t B) :
  exists rest : list call, Py.trace (Py.bind m k) = Py.trace m ++ rest.
Proof.
  unfold Py.bind. destruct (Py.result m) as [a | e]; cbn [Py.trace].
  - now exists (Py.trace (k a)).
  - exists []. now rewrite app_nil_r.
Qed.

Lemma trace_try_except_prefix {A} (body : Py.t A) (handler : exception -> Py.t A) :
  exists rest : list call,
    Py.trace (Py.try_except body handler) = Py.trace body ++ rest.
Proof.
  unfold Py.try_except. destruct (Py.result body) as [a | e]; cbn [Py.trace].
  - exists []. now rewrite app_nil_r.
  - now exists (Py.trace (handler e)).
Qed.

End PyFacts.

(** ** The encoder *)

Ltac py_unfold :=
  unfold recognize_face, get_face_encoding_from_photo,
    Py.bind, Py.try_except, Py.extern, Py.enter, Py.index, Py.ret, Py.raise.

Ltac nonempty l :=
  destruct l as [| ? ?]; [congruence |].

Section EncoderFacts.

Variable face_recognition : face_recognition_module.

(** What the encoder returns on a non-empty photo when the library is
    present, by the outcome of the two library calls. *)
Lemma encode_result (photo : bytes) :
  photo <> [] ->
  Py.result (get_face_encoding_from_photo true face_recognition (Some photo)) =
  Return
    match load_image_file face_recognition photo with
    | Raise e =>
        (None, ("Error processing photo for face recognition: " ++ str e)%string)
    | Return img =>
        match face_encodings face_recognition img with
        | Raise e =>
            (None, ("Error processing photo for face recognition: " ++ str e)%string)
        | Return [] => (None, "No face found in the uploaded photo.")
        | Return (first :: _) => (Some first, "Face encoding generated successfully.")
        end
    end.
Proof.
  intros Hphoto. nonempty photo. py_unfold. cbn.
  destruct (load_image_file face_recognition (b :: photo)) as [img | e]; cbn;
    [|reflexivity].
  destruct (face_encodings face_recognition img) as [[| first rest] | e];
    reflexivity.
Qed.

(** Every entry into the encoder is recorded, whatever it then does. *)
Lemma encode_entry_recorded (available : bool) (photo_bytes : option bytes) :
  exists rest : list call,
    Py.trace (get_face_encoding_from_photo available face_recognition photo_bytes)
    = Call_get_face_encoding_from_photo photo_bytes :: rest.
Proof.
  unfold get_face_encoding_from_photo.
  exact (PyFacts.trace_bind_prefix _ _).
Qed.

(** C4: when the library detects one or more faces in a photo, the
    encoder returns one embedding, the first of the list the library
    produced, whatever the other detections are. *)
Theorem encode_first_detection (photo : bytes)
    (img : image face_recognition) (first : ndarray) (rest : list ndarray) :
  photo <> [] ->
  load_image_file face_recognition photo = Return img ->
  face_encodings face_recognition img = Return (first :: rest) ->
  Py.result (get_face_encoding_from_photo true face_recognition (Some photo))
  = Return (Some first, "Face encoding generated successfully.").
Proof.
  intros Hphoto Hload Hfaces.
  now rewrite encode_result, Hload, Hfaces.
Qed.

(** C5: on a photo with no detectable face the encoder returns [None]
    with the "no face found" diagnostic; a failure to decode the image,
    or a failure of the detector, is returned as [None] with a diagnostic
    carrying the failure; and the encoder returns on every input. *)
Theorem encode_no_face_and_never_raises :
  (forall (photo : bytes) (img : image face_recognition),
      photo <> [] ->
      load_image_file face_recognition photo = Return img ->
      face_encodings face_recognition img = Return [] ->
      Py.result (get_face_encoding_from_photo true face_recognition (Some photo))
      = Return (None, "No face found in the uploaded photo."))
  /\ (forall (photo : bytes) (e : exception),
      photo <> [] ->
      load_image_file face_recognition photo = Raise e ->
      Py.result (get_face_encoding_from_photo true face_recognition (Some photo))
      = Return (None, ("Error processing photo for face recognition: " ++ str e)%string))
  /\ (forall (photo : bytes) (img : image face_recognition) (e : exception),
      photo <> [] ->
      load_image_file face_recognition photo = Return img ->
      face_encodings face_recognition img = Raise e ->
      Py.result (get_face_encoding_from_photo true face_recognition (Some photo))
      = Return (None, ("Error processing photo for face recognition: " ++ str e)%string))
  /\ (forall (available : bool) (photo_bytes : option bytes),
      exists (embedding : option ndarray) (diagnostic : string),
        Py.result (get_face_encoding_from_photo available face_recognition photo_bytes)
        = Return (embedding, diagnostic)).
Proof.
  repeat split.
  - intros photo img Hphoto Hload Hfaces.
    now rewrite encode_result, Hload, Hfaces.
  - intros photo e Hphoto Hload. now rewrite encode_result, Hload.
  - intros photo img e Hphoto Hload Hfaces.
    now rewrite encode_result, Hload, Hfaces.
  - intros [|] [[| b bs] |]; try (py_unfold; cbn; eauto; fail).
    rewrite encode_result by congruence.
    destruct (load_image_file face_recognition (b :: bs)) as [img | e]; eauto.
    destruct (face_encodings face_recognition img) as [[| first rest] | e]; eauto.
Qed.

(** C10: with absent or empty photo bytes the encoder returns [None]
    at once, having called neither the decoder nor the detector, with the
    diagnostic it also gives when the library is missing. *)
Theorem encode_empty_photo (available : bool) (photo_bytes : option bytes) :
  get_face_encoding_from_photo available face_recognition None
  = Py.Build [Call_get_face_encoding_from_photo None]
      (Return (None, "Face recognition is not available or no photo provided."))
  /\ get_face_encoding_from_photo available face_recognition (Some [])
  = Py.Build [Call_get_face_encoding_from_photo (Some [])]
      (Return (None, "Face recognition is not available or no photo provided."))
  /\ get_face_encoding_from_photo false face_recognition photo_bytes
  = Py.Build [Call_get_face_encoding_from_photo photo_bytes]
      (Return (None, "Face recognition is not available or no photo provided.")).
Proof.
  repeat split; py_unfold; destruct available; reflexivity.
Qed.

End EncoderFacts.

(** ** The verifier: preconditions *)

Section VerifierPreconditions.

Variable face_recognition : face_recognition_module.
Variable byteorder : Binary64.byteorder.

(** C2: the verifier checks, in this order, that the library is present,
    that stored embedding bytes were given and that photo bytes were
    given; the first check that fails decides the answer, which is a
    refusal with the diagnostic of that check and is given without any
    call to a library.  A student with no stored embedding is refused
    whether or not the library is present. *)
Theorem verify_preconditions_in_order
    (known current : option bytes) (k p : Byte.byte) (ks ps : bytes) :
  recognize_face false face_recognition byteorder known current
  = Py.ret (false, "Face recognition is not available.")
  /\ recognize_face true face_recognition byteorder None current
  = Py.ret (false, "No registered face data found for this student.")
  /\ recognize_face true face_recognition byteorder (Some []) current
  = Py.ret (false, "No registered face data found for this student.")
  /\ recognize_face true face_recognition byteorder (Some (k :: ks)) None
  = Py.ret (false, "No current photo provided for attendance.")
  /\ recognize_face true face_recognition byteorder (Some (k :: ks)) (Some [])
  = Py.ret (false, "No current photo provided for attendance.")
  /\ (forall available : bool,
        decision (recognize_face available face_recognition byteorder None current)
        = Some false
        /\ decision (recognize_face available face_recognition byteorder (Some []) current)
        = Some false).
Proof.
  repeat split; try reflexivity; destruct available; reflexivity.
Qed.

(** C7: when the stored embedding is absent or empty the verifier
    refuses without entering the encoder, so with an answer that does
    not depend on the photo; when the photo is absent or empty it
    refuses without reading the stored buffer, so with an answer that
    does not depend on which non-empty buffer was stored. *)
Theorem verify_refusal_independent_of_other_input (available : bool) :
  (forall known : option bytes,
      truthy known = false ->
      exists diagnostic : string,
        forall current : option bytes,
          recognize_face available face_recognition byteorder known current
          = Py.Build [] (Return (false, diagnostic)))
  /\ (forall current : option bytes,
      truthy current = false ->
      exists diagnostic : string,
        forall stored : bytes,
          stored <> [] ->
          recognize_face available face_recognition byteorder (Some stored) current
          = Py.Build [] (Return (false, diagnostic))).
Proof.
  split.
  - intros known Hknown.
    destruct available.
    + exists "No registered face data found for this student.".
      intros current. unfold recognize_face. now rewrite Hknown.
    + exists "Face recognition is not available.". reflexivity.
  - intros current Hcurrent.
    destruct available.
    + exists "No current photo provided for attendance.".
      intros stored Hstored. nonempty stored.
      unfold recognize_face. now rewrite Hcurrent.
    + exists "Face recognition is not available.". reflexivity.
Qed.

(** C8, amended: with the library present, an absent stored embedding
    and a non-empty photo give exactly
    [(False, "No registered face data found for this student.")], and a
    non-empty stored embedding and an absent photo give exactly
    [(False, "No current photo provided for attendance.")]. *)
Theorem verify_missing_input_diagnostics (stored photo : bytes) :
  stored <> [] ->
  photo <> [] ->
  Py.result (recognize_face true face_recognition byteorder None (Some photo))
  = Return (false, "No registered face data found for this student.")
  /\ Py.result (recognize_face true face_recognition byteorder (Some stored) None)
  = Return (false, "No current photo provided for attendance.").
Proof.
  intros Hstored Hphoto. nonempty stored. split; reflexivity.
Qed.

End VerifierPreconditions.

(** ** The verifier: comparison *)

Lemma compare_faces_single (known candidate : ndarray) (tolerance : float) :
  compare_faces [known] candidate tolerance =
  match np.subtract known candidate with
  | Raise e => Raise e
  | Return d => Return [(np.linalg_norm d <=? tolerance)%float]
  end.
Proof.
  unfold compare_faces, face_distance. cbn [traverse].
  now destruct (np.subtract known candidate).
Qed.

Lemma subtract_same_shape (a b : ndarray) :
  len a = len b ->
  np.subtract a b = Return (map (fun p => (fst p - snd p)%float) (combine a b)).
Proof. unfold np.subtract. intros ->. now rewrite Nat.eqb_refl. Qed.

Lemma linalg_norm_subtract (a b : ndarray) :
  np.linalg_norm (map (fun p => (fst p - snd p)%float) (combine a b))
  = euclidean_distance a b.
Proof. unfold np.linalg_norm, euclidean_distance. now rewrite map_map. Qed.

(** Shapes that cannot be broadcast against each other. *)
Lemma subtract_shape_mismatch (a b : ndarray) :
  len a <> len b -> len a <> 1%nat -> len b <> 1%nat ->
  np.subtract a b = Raise (ValueError "operands could not be broadcast together").
Proof.
  unfold np.subtract, len. intros Hab Ha Hb.
  destruct (Nat.eqb_spec (List.length a) (List.length b)); [contradiction|].
  destruct a as [| x [| x' a]]; destruct b as [| y [| y' b]];
    cbn in *; congruence.
Qed.

(** A stored array with a single item is repeated along the candidate. *)
Lemma subtract_broadcast_single (x : float) (b : ndarray) :
  np.subtract [x] b = Return (map (fun y => (x - y)%float) b).
Proof.
  unfold np.subtract, len.
  destruct (Nat.eqb_spec (List.length [x]) (List.length b)) as [E|]; [|reflexivity].
  destruct b as [| y [| y' b]]; cbn in E; try discriminate. reflexivity.
Qed.

Lemma frombuffer_bad_size (o : Binary64.byteorder) (buf : bytes) :
  (len buf mod 8 <> 0)%nat ->
  np.frombuffer o (Some buf)
  = Raise (ValueError "buffer size must be a multiple of element size").
Proof.
  unfold np.frombuffer. intros H.
  now destruct (Nat.eqb_spec (len buf mod 8) 0).
Qed.

Lemma len_items (o : Binary64.byteorder) (count : nat) (buf : bytes) :
  len (np.items o count buf) = count.
Proof.
  unfold len. revert buf. induction count as [| count IH]; intros buf;
    [reflexivity | cbn; now rewrite IH].
Qed.

Lemma frombuffer_len (o : Binary64.byteorder) (buf : bytes) (a : ndarray) :
  np.frombuffer o (Some buf) = Return a -> (len buf = 8 * len a)%nat.
Proof.
  unfold np.frombuffer.
  destruct (Nat.eqb_spec (len buf mod 8) 0) as [E|]; [|discriminate].
  intros [= <-]. rewrite len_items.
  pose proof (Nat.div_mod_eq (len buf) 8) as Hdm.
  rewrite E, Nat.add_0_r in Hdm. exact Hdm.
Qed.

(** Within the tolerance or not, the norm of the difference of two
    arrays of 128 items decides as the lane-by-lane distance does. *)
Lemma norm_within_128 (a b : ndarray) (tolerance : float) :
  len a = 128%nat ->
  len b = 128%nat ->
  (np.linalg_norm (map (fun p => (fst p - snd p)%float) (combine a b)) <=? tolerance)%float
  = (rounded_distance a b <=? tolerance)%float.
Proof.
  intros Ha Hb. unfold np.linalg_norm, np.sum, rounded_distance.
  rewrite map_map. cbv zeta.
  set (squares := map (fun p => ((fst p - snd p) * (fst p - snd p))%float) (combine a b)).
  assert (Hlen : len squares = 128%nat).
  { unfold squares, len in *. rewrite length_map, length_combine, Ha, Hb. reflexivity. }
  rewrite (SumFacts.pairwise_sum_128 squares Hlen).
  apply SumFacts.sqrt_add_zero_within.
Qed.

Lemma subtract_stretch (x : float) (b : ndarray) :
  len b = 128%nat ->
  np.subtract [x] b
  = Return (map (fun p => (fst p - snd p)%float) (combine (repeat x 128) b)).
Proof.
  intros Hb. rewrite subtract_broadcast_single, <- Hb. clear Hb. f_equal.
  unfold len. induction b as [| y b IH]; [reflexivity|].
  cbn [List.length repeat combine map fst snd]. now rewrite IH.
Qed.

Lemma stretch_128 (known : ndarray) : len known = 128%nat -> stretch known = known.
Proof.
  intros Hlen. destruct known as [| x [| y known]]; try discriminate Hlen.
  reflexivity.
Qed.

Lemma len_one (known : ndarray) :
  len known = 1%nat -> exists x : float, known = [x].
Proof.
  destruct known as [| x [| y known]]; try discriminate. intros _. now exists x.
Qed.

Section VerifierFacts.

Variable face_recognition : face_recognition_module.
Variable byteorder : Binary64.byteorder.

(** What the verifier returns once its three preconditions hold, by the
    outcome of each step. *)
Lemma verify_result (stored photo : bytes) :
  stored <> [] ->
  photo <> [] ->
  Py.result (recognize_face true face_recognition byteorder (Some stored) (Some photo)) =
  Return
    match np.frombuffer byteorder (Some stored) with
    | Raise e => (false, ("Error during face recognition: " ++ str e)%string)
    | Return known =>
        match Py.result (get_face_encoding_from_photo true face_recognition (Some photo)) with
        | Raise e => (false, ("Error during face recognition: " ++ str e)%string)
        | Return (None, message) =>
            (false, ("Could not detect face in current photo: " ++ message)%string)
        | Return (Some current, _) =>
            match compare_faces [known] current 0.5%float with
            | Raise e => (false, ("Error during face recognition: " ++ str e)%string)
            | Return [] =>
                (false, "Error during face recognition: list index out of range")
            | Return (true :: _) => (true, "Face recognized successfully.")
            | Return (false :: _) => (false, "Face not recognized. Please try again.")
            end
        end
    end.
Proof.
  intros Hstored Hphoto.
  destruct stored as [| k ks]; [congruence|].
  destruct photo as [| p ps]; [congruence|].
  unfold recognize_face. cbn [truthy negb].
  rewrite PyFacts.result_try_except, PyFacts.result_bind.
  cbn [Py.extern Py.result].
  match goal with
  | |- context [np.frombuffer ?o ?b] =>
      destruct (np.frombuffer o b) as [known | e]; [|reflexivity]
  end.
  rewrite PyFacts.result_bind.
  match goal with
  | |- context [get_face_encoding_from_photo ?a ?f ?b] =>
      destruct (Py.result (get_face_encoding_from_photo a f b))
        as [[[current |] message] | e]; try reflexivity
  end.
  rewrite PyFacts.result_bind. cbn [Py.extern Py.result].
  destruct (compare_faces [known] current 0.5%float) as [[| [|] matches] | e];
    reflexivity.
Qed.

(** Once the preconditions hold, reading the stored buffer is the first
    call made. *)
Lemma verify_reads_stored_first (stored photo : bytes) :
  stored <> [] ->
  photo <> [] ->
  exists rest : list call,
    Py.trace (recognize_face true face_recognition byteorder (Some stored) (Some photo))
    = Call_frombuffer (Some stored) :: rest.
Proof.
  intros Hstored Hphoto.
  destruct stored as [| k ks]; [congruence|].
  destruct photo as [| p ps]; [congruence|].
  unfold recognize_face. cbn [truthy negb].
  match goal with
  | |- context [Py.try_except ?body ?handler] =>
      destruct (PyFacts.trace_try_except_prefix body handler) as [outer ->];
      match body with
      | Py.bind ?m ?k =>
          destruct (PyFacts.trace_bind_prefix m k) as [inner ->]
      end
  end.
  cbn [Py.extern Py.trace app]. eauto.
Qed.

(** The calls of a verification that reaches the comparison, in order. *)
Lemma verify_calls_in_order (stored photo : bytes) (known : ndarray)
    (img : image face_recognition) (current : ndarray) (others : list ndarray) :
  stored <> [] ->
  photo <> [] ->
  np.frombuffer byteorder (Some stored) = Return known ->
  load_image_file face_recognition photo = Return img ->
  face_encodings face_recognition img = Return (current :: others) ->
  Py.trace (recognize_face true face_recognition byteorder (Some stored) (Some photo))
  = [Call_frombuffer (Some stored);
     Call_get_face_encoding_from_photo (Some photo);
     Call_load_image_file photo;
     Call_face_encodings;
     Call_compare_faces [known] current].
Proof.
  intros Hstored Hphoto Hknown Hload Hfaces.
  destruct stored as [| k ks]; [congruence|].
  destruct photo as [| p ps]; [congruence|].
  py_unfold. cbn [truthy negb orb BytesIO Py.result Py.trace].
  change (@Some (list Byte.byte) (k :: ks)) with (@Some bytes (k :: ks)) in *.
  rewrite Hknown. cbn [Py.result Py.trace].
  rewrite Hload. cbn [Py.result Py.trace].
  rewrite Hfaces. cbn [Py.result Py.trace len List.length Nat.ltb Nat.leb nth_error].
  destruct (compare_faces [known] current 0.5%float) as [[| [|] matches] | e];
    reflexivity.
Qed.

(** The verdict when the stored array and the fresh embedding have the
    same dimension. *)
Lemma verify_same_shape (stored photo : bytes) (known : ndarray)
    (img : image face_recognition) (current : ndarray) (others : list ndarray) :
  stored <> [] ->
  photo <> [] ->
  np.frombuffer byteorder (Some stored) = Return known ->
  load_image_file face_recognition photo = Return img ->
  face_encodings face_recognition img = Return (current :: others) ->
  len known = len current ->
  Py.result (recognize_face true face_recognition byteorder (Some stored) (Some photo))
  = Return (if (euclidean_distance known current <=? 0.5)%float
            then (true, "Face recognized successfully.")
            else (false, "Face not recognized. Please try again.")).
Proof.
  intros Hstored Hphoto Hknown Hload Hfaces Hshape.
  rewrite verify_result, Hknown, encode_result, Hload, Hfaces by assumption.
  rewrite compare_faces_single, subtract_same_shape, linalg_norm_subtract
    by assumption.
  now destruct (euclidean_distance known current <=? 0.5)%float.
Qed.

(** The verdict on a photo with a detected face of 128 items, by what
    the stored bytes read back as. *)
Lemma verify_by_stored_shape (stored photo : bytes)
    (img : image face_recognition) (current : ndarray) (others : list ndarray) :
  stored <> [] ->
  photo <> [] ->
  load_image_file face_recognition photo = Return img ->
  face_encodings face_recognition img = Return (current :: others) ->
  len current = 128%nat ->
  Py.result (recognize_face true face_recognition byteorder (Some stored) (Some photo))
  = Return
      match np.frombuffer byteorder (Some stored) with
      | Raise e => (false, ("Error during face recognition: " ++ str e)%string)
      | Return known =>
          if ((len known =? 128) || (len known =? 1))%nat
          then if (rounded_distance (stretch known) current <=? 0.5)%float
               then (true, "Face recognized successfully.")
               else (false, "Face not recognized. Please try again.")
          else (false,
                "Error during face recognition: operands could not be broadcast together")
      end.
Proof.
  intros Hstored Hphoto Hload Hfaces Hcurrent.
  rewrite verify_result, encode_result, Hload, Hfaces by assumption.
  match goal with
  | |- context [np.frombuffer ?o ?b] =>
      destruct (np.frombuffer o b) as [known | e]; [|reflexivity]
  end.
  rewrite compare_faces_single.
  destruct (Nat.eqb_spec (len known) 128) as [H128 | Hnot128].
  - cbn [orb].
    rewrite subtract_same_shape, norm_within_128, stretch_128 by congruence.
    now destruct (rounded_distance known current <=? 0.5)%float.
  - destruct (Nat.eqb_spec (len known) 1) as [H1 | Hnot1]; cbn [orb].
    + destruct (len_one known H1) as [x ->].
      rewrite subtract_stretch, norm_within_128
        by (assumption || apply repeat_length).
      cbn [stretch].
      now destruct (rounded_distance (repeat x 128) current <=? 0.5)%float.
    + rewrite subtract_shape_mismatch by lia. reflexivity.
Qed.

(** C1, amended: with the library present, non-empty stored bytes and a
    face of 128 items detected in a non-empty photo, the verifier
    answers "recognized" exactly when the stored bytes read back as 128
    items, or as one item, which then stands for that item repeated 128
    times, and the distance to the fresh embedding as it comes out in
    binary64 arithmetic (differences, squares, the squares added in
    eight interleaved running sums, square root, each rounded to
    nearest) is at most 0.5, the bound included; in every other case it
    answers with a refusal.  Stored zeros match a fresh zero vector and
    do not match a fresh vector of ones. *)
Theorem verify_matches_within_tolerance (stored photo : bytes)
    (img : image face_recognition) (current : ndarray) (others : list ndarray) :
  stored <> [] ->
  photo <> [] ->
  load_image_file face_recognition photo = Return img ->
  face_encodings face_recognition img = Return (current :: others) ->
  len current = 128%nat ->
  let verdict :=
    recognize_face true face_recognition byteorder (Some stored) (Some photo) in
  (decision verdict = Some true
   <-> exists known : ndarray,
        np.frombuffer byteorder (Some stored) = Return known
        /\ (len known = 128%nat \/ len known = 1%nat)
        /\ (rounded_distance (stretch known) current <=? 0.5)%float = true)
  /\ (Py.result verdict = Return (true, "Face recognized successfully.")
      \/ exists diagnostic : string, Py.result verdict = Return (false, diagnostic))
  /\ (forall known : ndarray,
        np.frombuffer byteorder (Some stored) = Return known ->
        len known = 128%nat ->
        Py.result verdict
        = Return (if (rounded_distance known current <=? 0.5)%float
                  then (true, "Face recognized successfully.")
                  else (false, "Face not recognized. Please try again.")))
  /\ (stored = np.tobytes byteorder (zeros 128) -> current = zeros 128 ->
      decision verdict = Some true)
  /\ (stored = np.tobytes byteorder (zeros 128) -> current = ones 128 ->
      decision verdict = Some false).
Proof.
  intros Hstored Hphoto Hload Hfaces Hcurrent verdict.
  pose proof (verify_by_stored_shape _ _ _ _ _ Hstored Hphoto Hload Hfaces Hcurrent)
    as Hverdict.
  fold verdict in Hverdict.
  assert (Hsame : forall known : ndarray,
             np.frombuffer byteorder (Some stored) = Return known ->
             len known = 128%nat ->
             Py.result verdict
             = Return (if (rounded_distance known current <=? 0.5)%float
                       then (true, "Face recognized successfully.")
                       else (false, "Face not recognized. Please try again."))).
  { intros known Hknown H128. rewrite Hverdict, Hknown, H128.
    cbn [Nat.eqb orb]. now rewrite stretch_128. }
  split; [|split; [|split; [exact Hsame|split]]].
  - unfold decision. rewrite Hverdict.
    destruct (np.frombuffer byteorder (Some stored)) as [known | e].
    + destruct (Nat.eqb_spec (len known) 128) as [H128 | Hnot128];
        [|destruct (Nat.eqb_spec (len known) 1) as [H1 | Hnot1]]; cbn [orb].
      * destruct (rounded_distance (stretch known) current <=? 0.5)%float eqn:Hle.
        -- split; [intros _; exists known; auto | reflexivity].
        -- split; [discriminate|].
           intros (known' & [= <-] & _ & Hle'). congruence.
      * destruct (rounded_distance (stretch known) current <=? 0.5)%float eqn:Hle.
        -- split; [intros _; exists known; auto | reflexivity].
        -- split; [discriminate|].
           intros (known' & [= <-] & _ & Hle'). congruence.
      * split; [discriminate|].
        intros (known' & [= <-] & [H | H] & _); contradiction.
    + split; [discriminate|]. intros (known' & Hknown' & _). discriminate.
  - rewrite Hverdict.
    destruct (np.frombuffer byteorder (Some stored)) as [known | e];
      [|right; eexists; reflexivity].
    destruct ((len known =? 128) || (len known =? 1))%nat;
      [|right; eexists; reflexivity].
    destruct (rounded_distance (stretch known) current <=? 0.5)%float;
      [now left | right; eexists; reflexivity].
  - intros -> ->. unfold decision.
    rewrite (Hsame (zeros 128)) by (apply npFacts.frombuffer_tobytes || reflexivity).
    vm_compute. reflexivity.
  - intros -> ->. unfold decision.
    rewrite (Hsame (zeros 128)) by (apply npFacts.frombuffer_tobytes || reflexivity).
    vm_compute. reflexivity.
Qed.

(** C3, amended: the verifier returns on every input, either the
    success answer or a refusal with a diagnostic.  An exception raised
    while reading the stored buffer or while comparing is returned as
    [(False, "Error during face recognition: <detail>")]; an exception
    raised while encoding the photo is caught by the encoder and comes
    back as [(False, "Could not detect face in current photo: Error
    processing photo for face recognition: <detail>")]. *)
Theorem verify_never_raises :
  (forall (available : bool) (known current : option bytes),
      Py.result (recognize_face available face_recognition byteorder known current)
      = Return (true, "Face recognized successfully.")
      \/ exists diagnostic : string,
        Py.result (recognize_face available face_recognition byteorder known current)
        = Return (false, diagnostic))
  /\ (forall (stored photo : bytes) (e : exception),
      stored <> [] ->
      photo <> [] ->
      np.frombuffer byteorder (Some stored) = Raise e ->
      Py.result (recognize_face true face_recognition byteorder (Some stored) (Some photo))
      = Return (false, ("Error during face recognition: " ++ str e)%string))
  /\ (forall (stored photo : bytes) (known : ndarray) (img : image face_recognition)
        (current : ndarray) (others : list ndarray) (e : exception),
      stored <> [] ->
      photo <> [] ->
      np.frombuffer byteorder (Some stored) = Return known ->
      load_image_file face_recognition photo = Return img ->
      face_encodings face_recognition img = Return (current :: others) ->
      compare_faces [known] current 0.5%float = Raise e ->
      Py.result (recognize_face true face_recognition byteorder (Some stored) (Some photo))
      = Return (false, ("Error during face recognition: " ++ str e)%string))
  /\ (forall (stored photo : bytes) (known : ndarray) (e : exception),
      stored <> [] ->
      photo <> [] ->
      np.frombuffer byteorder (Some stored) = Return known ->
      load_image_file face_recognition photo = Raise e
      \/ (exists img : image face_recognition,
            load_image_file face_recognition photo = Return img
            /\ face_encodings face_recognition img = Raise e) ->
      Py.result (recognize_face true face_recognition byteorder (Some stored) (Some photo))
      = Return (false,
                ("Could not detect face in current photo: "
                 ++ "Error processing photo for face recognition: " ++ str e)%string)).
Proof.
  repeat split.
  - intros [|] [[| k ks] |] current; try (right; eexists; reflexivity).
    destruct current as [[| p ps] |]; try (right; eexists; reflexivity).
    rewrite verify_result by congruence.
    repeat match goal with
    | |- context [match ?step with Return _ => _ | Raise _ => _ end] =>
        destruct step
    | |- context [match ?found with (_, _) => _ end] => destruct found
    | |- context [match ?found with Some _ => _ | None => _ end] => destruct found
    | |- context [match ?matches with [] => _ | _ :: _ => _ end] => destruct matches
    | |- context [if ?recognized then _ else _] => destruct recognized
    end;
    first [now left | right; eexists; reflexivity].
  - intros stored photo e Hstored Hphoto Hknown.
    now rewrite verify_result, Hknown.
  - intros stored photo known img current others e
      Hstored Hphoto Hknown Hload Hfaces Hcompare.
    now rewrite verify_result, Hknown, encode_result, Hload, Hfaces, Hcompare.
  - intros stored photo known e Hstored Hphoto Hknown [Hload | [img [Hload Hfaces]]].
    + now rewrite verify_result, Hknown, encode_result, Hload.
    + now rewrite verify_result, Hknown, encode_result, Hload, Hfaces.
Qed.

(** C9, amended: stored bytes whose length is not a multiple of 8 are
    refused with [(False, "Error during face recognition: <detail>")]
    before the encoder is entered; stored bytes that read back as an
    array whose dimension is neither 1 nor that of the 128-dimensional
    fresh embedding are refused in the same form when the comparison
    fails.  A stored array of a single item is not refused: the
    comparison repeats the item along the fresh embedding and the
    verdict is that of the resulting distance. *)
Theorem verify_malformed_stored_embedding (stored photo : bytes) :
  stored <> [] ->
  photo <> [] ->
  ((len stored mod 8 <> 0)%nat ->
   exists detail : string,
     recognize_face true face_recognition byteorder (Some stored) (Some photo)
     = Py.Build [Call_frombuffer (Some stored)]
         (Return (false, ("Error during face recognition: " ++ detail)%string)))
  /\ (forall (known : ndarray) (img : image face_recognition)
        (current : ndarray) (others : list ndarray),
      np.frombuffer byteorder (Some stored) = Return known ->
      load_image_file face_recognition photo = Return img ->
      face_encodings face_recognition img = Return (current :: others) ->
      len current = 128%nat ->
      len known <> 128%nat ->
      len known <> 1%nat ->
      exists detail : string,
        Py.result (recognize_face true face_recognition byteorder (Some stored) (Some photo))
        = Return (false, ("Error during face recognition: " ++ detail)%string))
  /\ (forall (x : float) (img : image face_recognition)
        (current : ndarray) (others : list ndarray),
      np.frombuffer byteorder (Some stored) = Return [x] ->
      load_image_file face_recognition photo = Return img ->
      face_encodings face_recognition img = Return (current :: others) ->
      Py.result (recognize_face true face_recognition byteorder (Some stored) (Some photo))
      = Return (if (np.linalg_norm (map (fun y => (x - y)%float) current) <=? 0.5)%float
                then (true, "Face recognized successfully.")
                else (false, "Face not recognized. Please try again."))).
Proof.
  intros Hstored Hphoto. repeat split.
  - intros Hsize.
    exists "buffer size must be a multiple of element size".
    destruct stored as [| k ks]; [congruence|].
    destruct photo as [| p ps]; [congruence|].
    unfold recognize_face. cbn [truthy negb].
    unfold Py.try_except, Py.bind, Py.extern. cbn [Py.result Py.trace].
    match goal with
    | |- context [np.frombuffer ?o ?b] =>
        replace (np.frombuffer o b)
          with (@Raise ndarray (ValueError "buffer size must be a multiple of element size"))
          by (symmetry; now apply frombuffer_bad_size)
    end.
    reflexivity.
  - intros known img current others Hknown Hload Hfaces Hcur Hk128 Hk1.
    exists "operands could not be broadcast together".
    rewrite verify_result, Hknown, encode_result, Hload, Hfaces by assumption.
    rewrite compare_faces_single, subtract_shape_mismatch by lia.
    reflexivity.
  - intros x img current others Hknown Hload Hfaces.
    rewrite verify_result, Hknown, encode_result, Hload, Hfaces by assumption.
    rewrite compare_faces_single, subtract_broadcast_single.
    now destruct (np.linalg_norm _ <=? 0.5)%float.
Qed.

End VerifierFacts.

(** ** The serialization contract *)

(** C6: an embedding of 128 binary64 values is written as 1024 bytes,
    eight per value and nothing else, and reading that buffer the way
    the verifier does gives back the embedding, item for item. *)
Theorem embedding_serialization_round_trip (byteorder : Binary64.byteorder)
    (embedding : ndarray) :
  len embedding = 128%nat ->
  len (np.tobytes byteorder embedding) = 1024%nat
  /\ np.frombuffer byteorder (Some (np.tobytes byteorder embedding))
     = Return embedding.
Proof.
  intros Hdim. split.
  - rewrite npFacts.len_tobytes, Hdim. reflexivity.
  - apply npFacts.frombuffer_tobytes.
Qed.

(** ** Instances *)

Lemma verify_matches_within_tolerance_witness :
  Py.result
    (recognize_face true (detects (zeros 128)) Binary64.little
       (Some (np.tobytes Binary64.little (zeros 128))) (Some [x01]))
  = Return (true, "Face recognized successfully.")
  /\ Py.result
       (recognize_face true (detects (ones 128)) Binary64.little
          (Some (np.tobytes Binary64.little (zeros 128))) (Some [x01]))
     = Return (false, "Face not recognized. Please try again.")
  /\ (rounded_distance (zeros 128) (0.5%float :: zeros 127) = 0.5%float
      /\ Py.result
           (recognize_face true (detects (0.5%float :: zeros 127)) Binary64.little
              (Some (np.tobytes Binary64.little (zeros 128))) (Some [x01]))
         = Return (true, "Face recognized successfully."))
  /\ (rounded_distance (zeros 128) sixteen_eighths = 0x1.0000000000001p-1%float
      /\ Py.result
           (recognize_face true (detects sixteen_eighths) Binary64.little
              (Some (np.tobytes Binary64.little (zeros 128))) (Some [x01]))
         = Return (false, "Face not recognized. Please try again."))
  /\ (rounded_distance (zeros 128) twenty_five_tenths = 0.5%float
      /\ Py.result
           (recognize_face true (detects twenty_five_tenths) Binary64.little
              (Some (np.tobytes Binary64.little (zeros 128))) (Some [x01]))
         = Return (true, "Face recognized successfully.")).
Proof.
  assert (Hat : forall current : ndarray,
             len current = 128%nat ->
             Py.result
               (recognize_face true (detects current) Binary64.little
                  (Some (np.tobytes Binary64.little (zeros 128))) (Some [x01]))
             = Return (if (rounded_distance (zeros 128) current <=? 0.5)%float
                       then (true, "Face recognized successfully.")
                       else (false, "Face not recognized. Please try again."))).
  { intros current Hcurrent.
    pose proof (verify_matches_within_tolerance (detects current) Binary64.little
                  (np.tobytes Binary64.little (zeros 128)) [x01] tt current []) as H.
    cbv zeta in H.
    destruct H as (_ & _ & H & _).
    - vm_compute; discriminate.
    - discriminate.
    - reflexivity.
    - reflexivity.
    - exact Hcurrent.
    - apply (H (zeros 128)); [apply npFacts.frombuffer_tobytes | reflexivity]. }
  split; [|split; [|split; [|split]]].
  - rewrite Hat by reflexivity. vm_compute. reflexivity.
  - rewrite Hat by reflexivity. vm_compute. reflexivity.
  - split; [vm_compute; reflexivity|].
    rewrite Hat by reflexivity. vm_compute. reflexivity.
  - split; [vm_compute; reflexivity|].
    rewrite Hat by reflexivity. vm_compute. reflexivity.
  - split; [vm_compute; reflexivity|].
    rewrite Hat by reflexivity. vm_compute. reflexivity.
Defined.

Lemma verify_never_raises_witness :
  Py.result (recognize_face true undecodable Binary64.little (Some [x01]) (Some [x01]))
  = Return (false,
            "Error during face recognition: buffer size must be a multiple of element size")
  /\ Py.result
       (recognize_face true undecodable Binary64.little
          (Some (np.tobytes Binary64.little (zeros 128))) (Some [x01]))
     = Return (false,
               "Could not detect face in current photo: Error processing photo for face recognition: cannot identify image file").
Proof.
  destruct (verify_never_raises undecodable Binary64.little) as (_ & Hread & _ & Hencode).
  split.
  - apply (Hread [x01] [x01]
             (ValueError "buffer size must be a multiple of element size"));
      [discriminate | discriminate | reflexivity].
  - apply (Hencode (np.tobytes Binary64.little (zeros 128)) [x01] (zeros 128)
             (LibraryError "cannot identify image file")).
    + vm_compute; discriminate.
    + discriminate.
    + apply npFacts.frombuffer_tobytes.
    + left. reflexivity.
Defined.

Lemma encode_first_detection_witness :
  Py.result
    (get_face_encoding_from_photo true
       (stub_face_recognition (Return tt) (Return [zeros 128; ones 128]))
       (Some [x01]))
  = Return (Some (zeros 128), "Face encoding generated successfully.").
Proof.
  apply (encode_first_detection
           (stub_face_recognition (Return tt) (Return [zeros 128; ones 128]))
           [x01] tt (zeros 128) [ones 128]);
    [discriminate | reflexivity | reflexivity].
Defined.

Lemma encode_no_face_and_never_raises_witness :
  Py.result
    (get_face_encoding_from_photo true (stub_face_recognition (Return tt) (Return []))
       (Some [x01]))
  = Return (None, "No face found in the uploaded photo.")
  /\ Py.result (get_face_encoding_from_photo true undecodable (Some [x01]))
     = Return (None,
               "Error processing photo for face recognition: cannot identify image file").
Proof.
  split.
  - destruct (encode_no_face_and_never_raises
                (stub_face_recognition (Return tt) (Return []))) as (Hnone & _).
    apply (Hnone [x01] tt); [discriminate | reflexivity | reflexivity].
  - destruct (encode_no_face_and_never_raises undecodable) as (_ & Hdecode & _).
    apply (Hdecode [x01] (LibraryError "cannot identify image file"));
      [discriminate | reflexivity].
Defined.

Lemma embedding_serialization_round_trip_witness :
  len (np.tobytes Binary64.little (ones 128)) = 1024%nat
  /\ np.frombuffer Binary64.little (Some (np.tobytes Binary64.little (ones 128)))
     = Return (ones 128).
Proof.
  apply (embedding_serialization_round_trip Binary64.little (ones 128)).
  reflexivity.
Defined.

Lemma verify_refusal_independent_of_other_input_witness :
  (exists diagnostic : string,
      forall current : option bytes,
        recognize_face true undecodable Binary64.little (Some []) current
        = Py.Build [] (Return (false, diagnostic)))
  /\ (exists diagnostic : string,
      forall stored : bytes,
        stored <> [] ->
        recognize_face true undecodable Binary64.little (Some stored) None
        = Py.Build [] (Return (false, diagnostic))).
Proof.
  destruct (verify_refusal_independent_of_other_input undecodable Binary64.little true)
    as (Hknown & Hcurrent).
  split.
  - apply (Hknown (Some [])). reflexivity.
  - apply (Hcurrent None). reflexivity.
Defined.

Lemma verify_missing_input_diagnostics_witness :
  Py.result (recognize_face true undecodable Binary64.little None (Some [x01]))
  = Return (false, "No registered face data found for this student.")
  /\ Py.result (recognize_face true undecodable Binary64.little (Some [x01]) None)
     = Return (false, "No current photo provided for attendance.").
Proof.
  apply (verify_missing_input_diagnostics undecodable Binary64.little [x01] [x01]);
    discriminate.
Defined.

Lemma verify_malformed_stored_embedding_witness :
  (exists detail : string,
      recognize_face true (detects (zeros 128)) Binary64.little (Some [x01]) (Some [x01])
      = Py.Build [Call_frombuffer (Some [x01])]
          (Return (false, ("Error during face recognition: " ++ detail)%string)))
  /\ (exists detail : string,
      Py.result
        (recognize_face true (detects (zeros 128)) Binary64.little
           (Some (np.tobytes Binary64.little (zeros 2))) (Some [x01]))
      = Return (false, ("Error during face recognition: " ++ detail)%string)).
Proof.
  split.
  - destruct (verify_malformed_stored_embedding (detects (zeros 128)) Binary64.little
                [x01] [x01]) as (Hsize & _); [discriminate | discriminate |].
    apply Hsize. vm_compute. discriminate.
  - destruct (verify_malformed_stored_embedding (detects (zeros 128)) Binary64.little
                (np.tobytes Binary64.little (zeros 2)) [x01]) as (_ & Hshape & _);
      [vm_compute; discriminate | discriminate |].
    apply (Hshape (zeros 2) tt (zeros 128) []);
      [apply npFacts.frombuffer_tobytes | reflexivity | reflexivity | reflexivity
      | vm_compute; discriminate | vm_compute; discriminate].
Defined.

(** ** Where the stated behaviour and the program differ *)

(** C1: the decision follows the distance as rounded, not the exact
    Euclidean distance, and does not need the stored array to have the
    dimension of the embedding.  The vector of twenty-five tenths lies,
    in exact arithmetic, farther than 0.5 from the zero vector, and is
    recognized against stored zeros; eight stored bytes read back as one
    item, which has no Euclidean distance to an embedding of 128 items,
    and are recognized against the zero embedding. *)
Lemma verify_decides_on_rounded_distance :
  (exists q : QArith_base.Q,
      exact_squared_distance (zeros 128) twenty_five_tenths = Some q
      /\ QArith_base.Qlt (QArith_base.Qmake 1 4) q)
  /\ Py.result
       (recognize_face true (detects twenty_five_tenths) Binary64.little
          (Some (np.tobytes Binary64.little (zeros 128))) (Some [x01]))
     = Return (true, "Face recognized successfully.")
  /\ np.frombuffer Binary64.little (Some (np.tobytes Binary64.little [0%float]))
     = Return [0%float]
  /\ exact_squared_distance [0%float] (zeros 128) = None
  /\ Py.result
       (recognize_face true (detects (zeros 128)) Binary64.little
          (Some (np.tobytes Binary64.little [0%float])) (Some [x01]))
     = Return (true, "Face recognized successfully.").
Proof.
  split; [|split; [|split; [|split]]].
  - eexists. split; [reflexivity|]. vm_compute. reflexivity.
  - vm_compute. reflexivity.
  - vm_compute. reflexivity.
  - reflexivity.
  - vm_compute. reflexivity.
Qed.

(** C3: a photo that the decoder rejects is refused with the encoder's
    diagnostic behind the "could not detect" prefix, not with the
    diagnostic of the verifier's own handler. *)
Lemma verify_decode_failure_is_not_reported_as_recognition_error :
  Py.result
    (recognize_face true undecodable Binary64.little
       (Some (np.tobytes Binary64.little (zeros 128))) (Some [x01]))
  = Return (false,
            "Could not detect face in current photo: Error processing photo for face recognition: cannot identify image file")
  /\ ~ (exists detail : string,
         Py.result
           (recognize_face true undecodable Binary64.little
              (Some (np.tobytes Binary64.little (zeros 128))) (Some [x01]))
         = Return (false, ("Error during face recognition: " ++ detail)%string))
  /\ ~ (exists detail : string,
         Py.result
           (recognize_face true undecodable Binary64.little
              (Some (np.tobytes Binary64.little (zeros 128))) (Some [x01]))
         = Return (false, ("error during recognition: " ++ detail)%string)).
Proof.
  split; [|split].
  - vm_compute. reflexivity.
  - intros [detail H]. vm_compute in H. discriminate H.
  - intros [detail H]. vm_compute in H. discriminate H.
Qed.

(** C8: the diagnostics returned are capitalised sentences ending in a
    full stop, not the strings of the scenario. *)
Lemma verify_missing_input_diagnostics_differ_from_scenario :
  Py.result (recognize_face true undecodable Binary64.little None (Some [x01]))
  <> Return (false, "no registered face data found for this student")
  /\ Py.result (recognize_face true undecodable Binary64.little (Some [x01]) None)
     <> Return (false, "no current photo provided for attendance").
Proof.
  split; intros H; vm_compute in H; discriminate H.
Qed.

(** C9: eight stored bytes read back as an array of one item, which
    the comparison repeats along the 128 items of the fresh embedding:
    nothing is raised, and the verdict is that of the distance. *)
Lemma verify_single_item_embedding_is_compared :
  np.frombuffer Binary64.little (Some (np.tobytes Binary64.little [0%float]))
  = Return [0%float]
  /\ len (np.tobytes Binary64.little [0%float]) = 8%nat
  /\ Py.result
       (recognize_face true (detects (zeros 128)) Binary64.little
          (Some (np.tobytes Binary64.little [0%float])) (Some [x01]))
     = Return (true, "Face recognized successfully.")
  /\ Py.result
       (recognize_face true (detects (ones 128)) Binary64.little
          (Some (np.tobytes Binary64.little [0%float])) (Some [x01]))
     = Return (false, "Face not recognized. Please try again.")
  /\ ~ (exists detail : string,
         Py.result
           (recognize_face true (detects (zeros 128)) Binary64.little
              (Some (np.tobytes Binary64.little [0%float])) (Some [x01]))
         = Return (false, ("Error during face recognition: " ++ detail)%string)).
Proof.
  split; [|split; [|split; [|split]]]; try (vm_compute; reflexivity).
  intros [detail H]. vm_compute in H. discriminate H.
Qed.

(** ** Comparisons of a float with zero *)

Module FloatFacts.

Lemma Prim2SF_zero : Prim2SF 0%float = S754_zero false.
Proof. reflexivity. Qed.

Lemma SFcompare_refl_finite (s : bool) (m : positive) (e : Z) :
  SFcompare (S754_finite s m e) (S754_finite s m e) = Some Eq.
Proof.
  unfold SFcompare. rewrite Z.compare_refl.
  replace (Pos.compare_cont Eq m m) with Eq
    by (symmetry; apply Pos.compare_cont_refl).
  now destruct s.
Qed.

(** A float that differs from zero and is at most zero is below zero. *)
Lemma nonzero_le_zero (f : float) :
  (negb (f =? 0) && (f <=? 0) = (f <? 0))%float.
Proof.
  rewrite eqb_spec, leb_spec, ltb_spec, Prim2SF_zero.
  unfold SFeqb, SFleb, SFltb.
  destruct (Prim2SF f) as [s | s | | s m e]; try destruct s; reflexivity.
Qed.

(** A float that differs from zero and is not at most zero is above
    zero, or is NaN. *)
Lemma nonzero_not_le_zero (f : float) :
  (negb (f =? 0) && negb (f <=? 0) = (0 <? f) || is_nan f)%float.
Proof.
  unfold is_nan.
  rewrite !eqb_spec, leb_spec, ltb_spec, Prim2SF_zero.
  unfold SFeqb, SFleb, SFltb.
  destruct (Prim2SF f) as [s | s | | s m e].
  - now destruct s.
  - now destruct s.
  - reflexivity.
  - rewrite SFcompare_refl_finite. now destruct s.
Qed.

End FloatFacts.

(** ** The payment stub *)

Section PaymentFacts.

Variable draw : nat.

(** On a number that is not zero, [x <= 0] says that it is negative. *)
Lemma le_zero_negative (amount : option number) :
  truthy_number amount = true ->
  le_zero amount = Py.ret (is_negative amount).
Proof.
  destruct amount as [[z | f] |]; cbn [truthy_number le_zero is_negative];
    intros Htruthy; [| | discriminate]; f_equal.
  - apply negb_true_iff, Z.eqb_neq in Htruthy.
    destruct (Z.leb_spec z 0), (Z.ltb_spec z 0); lia || reflexivity.
  - rewrite <- FloatFacts.nonzero_le_zero, Htruthy. reflexivity.
Qed.

Lemma random_choice_of_two {A} (x y : A) :
  Py.result (random_choice draw [x; y])
  = Return (if (draw mod 2 =? 0)%nat then x else y).
Proof.
  pose proof (Nat.mod_upper_bound draw 2 ltac:(lia)) as Hlt.
  unfold random_choice, Py.index, len. cbn [List.length Nat.eqb].
  destruct (draw mod 2)%nat as [| [| n]]; [reflexivity | reflexivity | lia].
Qed.

(** The answer of the payment stub, case by case. *)
Lemma process_payment_result (amount : option number) (token : option string) :
  Py.result (process_payment draw amount token)
  = Return
      (if negb (truthy_number amount) || negb (truthy_str token)
       then ("failure", "Invalid payment request")
       else if is_negative amount
            then ("failure", "Invalid amount")
            else if (draw mod 2 =? 0)%nat
                 then ("success", "Payment successful")
                 else ("failure", "Payment failed")).
Proof.
  unfold process_payment.
  destruct (truthy_number amount) eqn:Hamount; [|reflexivity].
  destruct (truthy_str token) eqn:Htoken; [|reflexivity].
  cbn [negb orb].
  rewrite le_zero_negative by assumption.
  rewrite PyFacts.result_bind. cbn [Py.ret Py.result].
  destruct (is_negative amount); [reflexivity|].
  rewrite PyFacts.result_bind, random_choice_of_two.
  now destruct (draw mod 2 =? 0)%nat.
Qed.

(** X1: the payment stub returns on every request, and its status and
    message agree: "success" comes with "Payment successful" and with
    nothing else, and "failure" comes with one of the three failure
    messages. *)
Theorem process_payment_status_and_message_agree
    (amount : option number) (token : option string) :
  exists status message : string,
    Py.result (process_payment draw amount token) = Return (status, message)
    /\ (status = "success" \/ status = "failure")
    /\ (status = "success" <-> message = "Payment successful")
    /\ (status = "failure" <->
        message = "Payment failed" \/ message = "Invalid amount"
        \/ message = "Invalid payment request").
Proof.
  rewrite process_payment_result.
  destruct (negb (truthy_number amount) || negb (truthy_str token));
    [|destruct (is_negative amount); [|destruct (draw mod 2 =? 0)%nat]];
    eexists; eexists; (split; [reflexivity|]);
    repeat split; intros; auto;
    repeat match goal with
           | H : _ \/ _ |- _ => destruct H
           end;
    discriminate.
Qed.

(** X2: "Invalid payment request" is the answer exactly when the amount
    is missing or zero, or the token is missing or empty; the sign of
    the amount is looked at only afterwards, so an amount of zero is
    never reported as "Invalid amount". *)
Theorem process_payment_invalid_request
    (amount : option number) (token : option string) :
  Py.result (process_payment draw amount token)
  = Return ("failure", "Invalid payment request")
  <-> truthy_number amount = false \/ truthy_str token = false.
Proof.
  rewrite process_payment_result.
  destruct (truthy_number amount), (truthy_str token); cbn [negb orb];
    try (split; [reflexivity || (intros _; auto) | reflexivity || (intros _; auto)]; fail).
  split.
  - destruct (is_negative amount); [|destruct (draw mod 2 =? 0)%nat]; discriminate.
  - intros [H | H]; discriminate.
Qed.

(** X3: "Invalid amount" is the answer exactly when the token is given
    and the amount is a number below zero. *)
Theorem process_payment_invalid_amount
    (amount : option number) (token : option string) :
  Py.result (process_payment draw amount token) = Return ("failure", "Invalid amount")
  <-> truthy_str token = true /\ is_negative amount = true.
Proof.
  rewrite process_payment_result.
  destruct (truthy_number amount) eqn:Hamount.
  - destruct (truthy_str token); cbn [negb orb].
    + destruct (is_negative amount).
      * split; auto.
      * split; [destruct (draw mod 2 =? 0)%nat; discriminate | intros [_ H]; discriminate].
    + split; [discriminate | intros [H _]; discriminate].
  - cbn [negb orb]. split; [discriminate|].
    intros [_ Hneg].
    destruct amount as [[z | f] |]; cbn [truthy_number is_negative] in *;
      [| | discriminate].
    + apply negb_false_iff, Z.eqb_eq in Hamount. apply Z.ltb_lt in Hneg. lia.
    + pose proof (FloatFacts.nonzero_le_zero f) as Hf.
      rewrite Hamount, Hneg in Hf. discriminate.
Qed.

(** X4: a payment succeeds exactly when the token is given, the amount
    is a number above zero or the float NaN, and the draw picks the
    first of the two statuses. *)
Theorem process_payment_success
    (amount : option number) (token : option string) :
  Py.result (process_payment draw amount token)
  = Return ("success", "Payment successful")
  <-> truthy_str token = true /\ is_positive_or_nan amount = true
      /\ (draw mod 2 = 0)%nat.
Proof.
  rewrite process_payment_result.
  assert (Hsplit : truthy_number amount && negb (is_negative amount)
                   = is_positive_or_nan amount).
  { destruct amount as [[z | f] |];
      cbn [truthy_number is_negative is_positive_or_nan]; [| | reflexivity].
    - destruct (Z.eqb_spec z 0), (Z.ltb_spec z 0), (Z.ltb_spec 0 z);
        cbn [negb andb]; lia || reflexivity.
    - rewrite <- FloatFacts.nonzero_not_le_zero.
      pose proof (FloatFacts.nonzero_le_zero f) as Hle.
      destruct (f =? 0)%float, (f <=? 0)%float, (f <? 0)%float;
        cbn [negb andb] in *; congruence. }
  rewrite <- Hsplit.
  destruct (truthy_number amount), (truthy_str token), (is_negative amount);
    cbn [negb orb andb];
    try (split; [discriminate | intros (H1 & H2 & H3); discriminate]).
  destruct (Nat.eqb_spec (draw mod 2) 0) as [Heven | Hodd].
  - split; auto.
  - split; [discriminate | intros (_ & _ & H); contradiction].
Qed.

End PaymentFacts.

(** ** The registration form and the grades *)

(** X5: the form is accepted, with [None], exactly when each of its
    eight fields is filled in. *)
Theorem validate_input_accepts_complete_forms
    (name roll_no email slot contact course favorite_teacher : option string)
    (photo : option bytes) :
  validate_input name roll_no email slot contact course favorite_teacher photo = None
  <-> truthy_str name = true /\ truthy_str roll_no = true
      /\ truthy_str email = true /\ truthy_str slot = true
      /\ truthy_str contact = true /\ truthy_str course = true
      /\ truthy_str favorite_teacher = true /\ truthy photo = true.
Proof.
  unfold validate_input.
  destruct (truthy_str name), (truthy_str roll_no), (truthy_str email),
    (truthy_str slot), (truthy_str contact), (truthy_str course),
    (truthy_str favorite_teacher), (truthy photo); cbn [negb];
    (split; [intros H; try discriminate H; repeat split
            | intros (H1 & H2 & H3 & H4 & H5 & H6 & H7 & H8);
              try reflexivity; discriminate]).
Qed.

(** X6: when a field is missing, the message returned is the one of the
    first missing field, in the order name, roll number, email, slot,
    contact, course, favorite teacher, photo; later fields are not
    reported. *)
Theorem validate_input_reports_first_missing_field
    (name roll_no email slot contact course favorite_teacher : option string)
    (photo : option bytes) :
  validate_input name roll_no email slot contact course favorite_teacher photo
  = hd_error
      (map snd
         (filter (fun field => negb (fst field))
            (form_fields name roll_no email slot contact course favorite_teacher photo))).
Proof.
  unfold validate_input, form_fields.
  destruct (truthy_str name), (truthy_str roll_no), (truthy_str email),
    (truthy_str slot), (truthy_str contact), (truthy_str course),
    (truthy_str favorite_teacher), (truthy photo); reflexivity.
Qed.

(** X7: the grade bands: 90 and above is "A", whatever the upper end,
    80 to 89 is "B", 70 to 79 is "C", 60 to 69 is "D", and everything
    below 60, negative marks included, is "F"; the course plays no
    part. *)
Theorem get_grade_bands (course : Course.t) (marks : Z) :
  (Course.get_grade course marks = "A" <-> 90 <= marks)%Z
  /\ (Course.get_grade course marks = "B" <-> 80 <= marks < 90)%Z
  /\ (Course.get_grade course marks = "C" <-> 70 <= marks < 80)%Z
  /\ (Course.get_grade course marks = "D" <-> 60 <= marks < 70)%Z
  /\ (Course.get_grade course marks = "F" <-> marks < 60)%Z.
Proof.
  unfold Course.get_grade.
  rewrite !Z.geb_leb.
  destruct (Z.leb_spec 90 marks), (Z.leb_spec 80 marks),
    (Z.leb_spec 70 marks), (Z.leb_spec 60 marks);
    repeat split; intros; try discriminate; try reflexivity; lia.
Qed.

(** X8: better marks never give a worse grade, in any two courses. *)
Theorem get_grade_monotone (course course' : Course.t) (marks marks' : Z) :
  (marks <= marks')%Z ->
  (grade_rank (Course.get_grade course marks)
   <= grade_rank (Course.get_grade course' marks'))%nat.
Proof.
  intros Hle. unfold Course.get_grade.
  rewrite !Z.geb_leb.
  destruct (Z.leb_spec 90 marks), (Z.leb_spec 80 marks),
    (Z.leb_spec 70 marks), (Z.leb_spec 60 marks),
    (Z.leb_spec 90 marks'), (Z.leb_spec 80 marks'),
    (Z.leb_spec 70 marks'), (Z.leb_spec 60 marks');
    cbn; lia.
Qed.

Lemma get_grade_monotone_witness :
  (grade_rank (Course.get_grade {| Course.name := "Python" |} 59)
   <= grade_rank (Course.get_grade {| Course.name := "Next.js" |} 60))%nat.
Proof.
  apply (get_grade_monotone {| Course.name := "Python" |}
           {| Course.name := "Next.js" |} 59 60).
  lia.
Defined.

(** ** The verifier: what an acceptance means *)

Lemma sub_self_finite (x : float) :
  PrimFloat.is_finite x = true -> (x - x)%float = 0%float.
Proof.
  unfold PrimFloat.is_finite. intros Hfinite.
  apply negb_true_iff, orb_false_iff in Hfinite as [Hnan Hinf].
  apply Prim2SF_inj. rewrite sub_spec, FloatFacts.Prim2SF_zero.
  assert (Hshape : (exists s, Prim2SF x = S754_zero s)
                   \/ (exists s m e, Prim2SF x = S754_finite s m e)).
  { unfold Prim2SF. rewrite Hnan, Hinf.
    destruct (is_zero x); [left; eauto|].
    destruct (Z.frexp x) as [r exp].
    destruct (shr_fexp prec emax (Uint63Axioms.to_Z (normfr_mantissa r)) (exp - prec) loc_Exact)
      as [shr e'].
    destruct (shr_m shr); eauto. }
  destruct Hshape as [[s ->] | (s & m & e & ->)].
  - now destruct s.
  - unfold SF64sub, SFsub. cbv zeta. now rewrite Z.sub_diag.
Qed.

(** The distance from an array of finite items to itself is zero. *)
Lemma euclidean_distance_self (a : ndarray) :
  Forall (fun x => PrimFloat.is_finite x = true) a ->
  euclidean_distance a a = 0%float.
Proof.
  intros Hfinite. unfold euclidean_distance.
  rewrite SumFacts.sum_of_zeros; [reflexivity|].
  induction Hfinite as [| x a Hx _ IH]; [constructor|].
  cbn [combine map]. constructor; [|exact IH].
  cbn [fst snd]. now rewrite sub_self_finite.
Qed.

Section VerifierMeaning.

Variable face_recognition : face_recognition_module.
Variable byteorder : Binary64.byteorder.

(** X9: the verifier accepts only when everything held: the library is
    present, stored bytes and photo bytes were given, the stored bytes
    read back as an array, the photo was decoded, at least one face was
    detected, and the distance from the stored array to the first
    detected embedding is at most 0.5. *)
Theorem verify_acceptance_sound (available : bool) (known current : option bytes) :
  decision (recognize_face available face_recognition byteorder known current)
  = Some true ->
  available = true
  /\ exists (stored photo : bytes) (array : ndarray) (img : image face_recognition)
       (first : ndarray) (others : list ndarray) (difference : ndarray),
      known = Some stored /\ stored <> []
      /\ current = Some photo /\ photo <> []
      /\ np.frombuffer byteorder (Some stored) = Return array
      /\ load_image_file face_recognition photo = Return img
      /\ face_encodings face_recognition img = Return (first :: others)
      /\ np.subtract array first = Return difference
      /\ (np.linalg_norm difference <=? 0.5)%float = true.
Proof.
  destruct available; [|discriminate].
  destruct known as [[| k ks] |]; try discriminate.
  destruct current as [[| p ps] |]; try discriminate.
  unfold decision.
  rewrite verify_result, encode_result by congruence.
  match goal with
  | |- context [np.frombuffer ?o ?b] =>
      destruct (np.frombuffer o b) as [array | e] eqn:Harray; [|discriminate]
  end.
  match goal with
  | |- context [load_image_file ?f ?b] =>
      destruct (load_image_file f b) as [img | e] eqn:Hload; [|discriminate]
  end.
  destruct (face_encodings face_recognition img) as [[| first others] | e] eqn:Hfaces;
    try discriminate.
  rewrite compare_faces_single.
  destruct (np.subtract array first) as [difference | e] eqn:Hsub; [|discriminate].
  destruct (np.linalg_norm difference <=? 0.5)%float eqn:Hle; [|discriminate].
  intros _. split; [reflexivity|].
  exists (k :: ks), (p :: ps), array, img, first, others, difference.
  repeat split; try assumption; congruence.
Qed.

(** X10: a photo showing several faces is judged as if it showed only
    the face detected first: the other detections change neither the
    decision nor the diagnostic. *)
Theorem verify_judges_first_face_only (available : bool) (known : option bytes)
    (photo : bytes) (img : image face_recognition)
    (first : ndarray) (others : list ndarray) :
  photo <> [] ->
  load_image_file face_recognition photo = Return img ->
  face_encodings face_recognition img = Return (first :: others) ->
  Py.result (recognize_face available face_recognition byteorder known (Some photo))
  = Py.result (recognize_face available (detects first) byteorder known (Some photo)).
Proof.
  intros Hphoto Hload Hfaces.
  destruct available; [|reflexivity].
  destruct known as [[| k ks] |]; try reflexivity.
  rewrite !verify_result, !encode_result by congruence.
  now rewrite Hload, Hfaces.
Qed.

(** X11: a photo in which no face is detected is refused whatever is
    stored, and when the stored bytes read back as an array the
    diagnostic is the encoder's, behind the verifier's prefix. *)
Theorem verify_refuses_photo_without_face (photo : bytes)
    (img : image face_recognition) :
  photo <> [] ->
  load_image_file face_recognition photo = Return img ->
  face_encodings face_recognition img = Return [] ->
  (forall (available : bool) (known : option bytes),
      decision (recognize_face available face_recognition byteorder known (Some photo))
      = Some false)
  /\ (forall (stored : bytes) (array : ndarray),
      stored <> [] ->
      np.frombuffer byteorder (Some stored) = Return array ->
      Py.result (recognize_face true face_recognition byteorder (Some stored) (Some photo))
      = Return (false,
                "Could not detect face in current photo: No face found in the uploaded photo.")).
Proof.
  intros Hphoto Hload Hfaces. split.
  - intros [|] [[| k ks] |]; try reflexivity.
    unfold decision.
    rewrite verify_result, encode_result, Hload, Hfaces by congruence.
    match goal with
    | |- context [np.frombuffer ?o ?b] => now destruct (np.frombuffer o b)
    end.
  - intros stored array Hstored Harray.
    now rewrite verify_result, Harray, encode_result, Hload, Hfaces.
Qed.

(** X12: enrolment and verification compose: when the embedding that
    was serialized at enrolment has finite items and the first face
    detected in the photo has that same embedding, the verifier
    recognizes the student. *)
Theorem verify_recognizes_enrolled_embedding (embedding : ndarray) (photo : bytes)
    (img : image face_recognition) (others : list ndarray) :
  embedding <> [] ->
  Forall (fun x => PrimFloat.is_finite x = true) embedding ->
  photo <> [] ->
  load_image_file face_recognition photo = Return img ->
  face_encodings face_recognition img = Return (embedding :: others) ->
  Py.result
    (recognize_face true face_recognition byteorder
       (Some (np.tobytes byteorder embedding)) (Some photo))
  = Return (true, "Face recognized successfully.").
Proof.
  intros Hembedding Hfinite Hphoto Hload Hfaces.
  assert (Hstored : np.tobytes byteorder embedding <> []).
  { intros Hnil. apply (f_equal len) in Hnil.
    rewrite npFacts.len_tobytes in Hnil.
    destruct embedding; [congruence | discriminate Hnil]. }
  rewrite (verify_same_shape face_recognition byteorder _ _ embedding img embedding others)
    by (auto using npFacts.frombuffer_tobytes).
  now rewrite euclidean_distance_self.
Qed.

End VerifierMeaning.

Lemma verify_acceptance_sound_witness :
  decision
    (recognize_face true (detects (zeros 128)) Binary64.little
       (Some (np.tobytes Binary64.little (zeros 128))) (Some [x01]))
  = Some true
  /\ exists (stored photo : bytes) (array : ndarray) (img : unit)
       (first : ndarray) (others : list ndarray) (difference : ndarray),
      Some (np.tobytes Binary64.little (zeros 128)) = Some stored /\ stored <> []
      /\ Some [x01] = Some photo /\ photo <> []
      /\ np.frombuffer Binary64.little (Some stored) = Return array
      /\ load_image_file (detects (zeros 128)) photo = Return img
      /\ face_encodings (detects (zeros 128)) img = Return (first :: others)
      /\ np.subtract array first = Return difference
      /\ (np.linalg_norm difference <=? 0.5)%float = true.
Proof.
  assert (H : decision
                (recognize_face true (detects (zeros 128)) Binary64.little
                   (Some (np.tobytes Binary64.little (zeros 128))) (Some [x01]))
              = Some true) by (vm_compute; reflexivity).
  split; [exact H|].
  exact (proj2 (verify_acceptance_sound (detects (zeros 128)) Binary64.little true
                  (Some (np.tobytes Binary64.little (zeros 128))) (Some [x01]) H)).
Defined.

Lemma verify_judges_first_face_only_witness :
  Py.result
    (recognize_face true (stub_face_recognition (Return tt) (Return [zeros 128; ones 128]))
       Binary64.little (Some (np.tobytes Binary64.little (zeros 128))) (Some [x01]))
  = Py.result
      (recognize_face true (detects (zeros 128)) Binary64.little
         (Some (np.tobytes Binary64.little (zeros 128))) (Some [x01])).
Proof.
  apply (verify_judges_first_face_only
           (stub_face_recognition (Return tt) (Return [zeros 128; ones 128]))
           Binary64.little true (Some (np.tobytes Binary64.little (zeros 128)))
           [x01] tt (zeros 128) [ones 128]);
    [discriminate | reflexivity | reflexivity].
Defined.

Lemma verify_refuses_photo_without_face_witness :
  Py.result
    (recognize_face true (stub_face_recognition (Return tt) (Return [])) Binary64.little
       (Some (np.tobytes Binary64.little (zeros 128))) (Some [x01]))
  = Return (false,
            "Could not detect face in current photo: No face found in the uploaded photo.").
Proof.
  destruct (verify_refuses_photo_without_face
              (stub_face_recognition (Return tt) (Return [])) Binary64.little [x01] tt)
    as (_ & Hdiagnostic); [discriminate | reflexivity | reflexivity |].
  apply (Hdiagnostic (np.tobytes Binary64.little (zeros 128)) (zeros 128)).
  - vm_compute; discriminate.
  - apply npFacts.frombuffer_tobytes.
Defined.

Lemma verify_recognizes_enrolled_embedding_witness :
  Py.result
    (recognize_face true (detects [0.25%float; (-0.5)%float; 1%float]) Binary64.big
       (Some (np.tobytes Binary64.big [0.25%float; (-0.5)%float; 1%float])) (Some [x01]))
  = Return (true, "Face recognized successfully.").
Proof.
  apply (verify_recognizes_enrolled_embedding
           (detects [0.25%float; (-0.5)%float; 1%float]) Binary64.big
           [0.25%float; (-0.5)%float; 1%float] [x01] tt []).
  - discriminate.
  - repeat constructor.
  - discriminate.
  - reflexivity.
  - reflexivity.
Defined.

(** ** The order of the calls *)

(** X13: the encoder decodes the photo first and runs the detector only
    on an image that was decoded: when decoding fails, the detector is
    never called. *)
Theorem encode_calls_in_order (face_recognition : face_recognition_module)
    (photo : bytes) :
  photo <> [] ->
  (forall e : exception,
      load_image_file face_recognition photo = Raise e ->
      Py.trace (get_face_encoding_from_photo true face_recognition (Some photo))
      = [Call_get_face_encoding_from_photo (Some photo); Call_load_image_file photo])
  /\ (forall img : image face_recognition,
      load_image_file face_recognition photo = Return img ->
      Py.trace (get_face_encoding_from_photo true face_recognition (Some photo))
      = [Call_get_face_encoding_from_photo (Some photo); Call_load_image_file photo;
         Call_face_encodings]).
Proof.
  intros Hphoto. destruct photo as [| p ps]; [congruence|].
  split.
  - intros e Hload. py_unfold. cbn [truthy negb orb BytesIO Py.result Py.trace].
    rewrite Hload. reflexivity.
  - intros img Hload. py_unfold. cbn [truthy negb orb BytesIO Py.result Py.trace].
    rewrite Hload. cbn [Py.result Py.trace].
    destruct (face_encodings face_recognition img) as [[| first others] | e];
      reflexivity.
Qed.

Lemma encode_calls_in_order_witness :
  Py.trace (get_face_encoding_from_photo true undecodable (Some [x01]))
  = [Call_get_face_encoding_from_photo (Some [x01]); Call_load_image_file [x01]].
Proof.
  destruct (encode_calls_in_order undecodable [x01]) as (Hfail & _);
    [discriminate|].
  apply (Hfail (LibraryError "cannot identify image file")). reflexivity.
Defined.

(** ** The database connection *)

Section DatabaseFacts.

Variable sqlite : sqlite3.module.

Ltac db_unfold :=
  unfold get_user_role, get_db_connection, Db.finally, Db.try_except, Db.bind,
    Db.extern, Db.index, Db.ret, Db.raise.

(** X14: once the connection and its cursor exist, the connection is
    closed exactly once, last, on every path; before that the work is
    committed when the body returned, rolled back when it raised, and
    rolled back after the commit when the commit itself raised. *)
Theorem get_db_connection_settles_then_closes {A} (body : Db.t A) :
  sqlite3.connect sqlite "student_portal.db" = Return tt ->
  sqlite3.cursor sqlite = Return tt ->
  Db.trace (get_db_connection sqlite body)
  = Db_connect "student_portal.db" :: Db_cursor :: Db.trace body
    ++ match Db.result body with
       | Raise _ => [Db_rollback]
       | Return _ =>
           match sqlite3.commit sqlite with
           | Return _ => [Db_commit]
           | Raise _ => [Db_commit; Db_rollback]
           end
       end
    ++ [Db_close].
Proof.
  intros Hconnect Hcursor. db_unfold. rewrite Hconnect, Hcursor.
  cbn [Db.result Db.trace app].
  destruct (Db.result body) as [v | e]; cbn [Db.result Db.trace].
  - destruct (sqlite3.commit sqlite) as [[] | e]; cbn [Db.result Db.trace];
      [|destruct (sqlite3.rollback sqlite) as [[] | e']; cbn [Db.result Db.trace]];
      rewrite <- ?app_assoc; cbn [app]; rewrite ?app_nil_r; reflexivity.
  - destruct (sqlite3.rollback sqlite) as [[] | e']; cbn [Db.result Db.trace];
      rewrite <- ?app_assoc; cbn [app]; rewrite ?app_nil_r; reflexivity.
Qed.

(** X15: the connection manager hides no failure: when the engine's
    other calls return, a body that returns a value gives that value
    after the commit, and a body that raises, or a commit that raises,
    gives that same exception to the caller after the rollback. *)
Theorem get_db_connection_propagates {A} (body : Db.t A) :
  sqlite3.connect sqlite "student_portal.db" = Return tt ->
  sqlite3.cursor sqlite = Return tt ->
  sqlite3.rollback sqlite = Return tt ->
  sqlite3.close sqlite = Return tt ->
  Db.result (get_db_connection sqlite body)
  = match Db.result body with
    | Raise e => Raise e
    | Return v =>
        match sqlite3.commit sqlite with
        | Return _ => Return v
        | Raise e => Raise e
        end
    end.
Proof.
  intros Hconnect Hcursor Hrollback Hclose. db_unfold.
  rewrite Hconnect, Hcursor, Hclose. cbn [Db.result Db.trace].
  destruct (Db.result body) as [v | e]; cbn [Db.result Db.trace].
  - destruct (sqlite3.commit sqlite) as [[] | e]; cbn [Db.result Db.trace];
      [reflexivity|]. now rewrite Hrollback.
  - now rewrite Hrollback.
Qed.

(** X16: the cursor is requested before the guarded block is entered:
    when no cursor can be opened the body does not run, the exception
    reaches the caller, and the connection that was opened is never
    closed. *)
Theorem get_db_connection_cursor_failure {A} (body : Db.t A) (e : exception) :
  sqlite3.connect sqlite "student_portal.db" = Return tt ->
  sqlite3.cursor sqlite = Raise e ->
  get_db_connection sqlite body
  = Db.Build [Db_connect "student_portal.db"; Db_cursor] (Raise e).
Proof.
  intros Hconnect Hcursor. db_unfold. now rewrite Hconnect, Hcursor.
Qed.

(** X17: on an engine whose calls return, the role lookup runs one
    statement, whose text is fixed and whose only parameter is the user
    name, fetches one row, commits and closes; it returns the first
    column of the row, and [None] when there is no row. *)
Theorem get_user_role_found_or_none (username : string) (found : option sqlite3.row) :
  sqlite3.connect sqlite "student_portal.db" = Return tt ->
  sqlite3.cursor sqlite = Return tt ->
  sqlite3.execute sqlite "SELECT role FROM users WHERE username = ?" [username]
  = Return tt ->
  sqlite3.fetchone sqlite = Return found ->
  sqlite3.commit sqlite = Return tt ->
  sqlite3.close sqlite = Return tt ->
  get_user_role sqlite username
  = Db.Build
      [Db_connect "student_portal.db"; Db_cursor;
       Db_execute "SELECT role FROM users WHERE username = ?" [username];
       Db_fetchone; Db_commit; Db_close]
      (Return match found with
              | Some (role :: _) => role
              | Some [] => None
              | None => None
              end).
Proof.
  intros Hconnect Hcursor Hexecute Hfetch Hcommit Hclose. db_unfold.
  rewrite Hconnect, Hcursor, Hexecute, Hfetch, Hcommit, Hclose.
  destruct found as [[| role others] |]; reflexivity.
Qed.

(** X18: when the statement fails, no row is fetched and nothing is
    committed: the lookup rolls back, closes the connection and gives
    the engine's exception to the caller. *)
Theorem get_user_role_statement_failure (username : string) (e : exception) :
  sqlite3.connect sqlite "student_portal.db" = Return tt ->
  sqlite3.cursor sqlite = Return tt ->
  sqlite3.execute sqlite "SELECT role FROM users WHERE username = ?" [username]
  = Raise e ->
  sqlite3.rollback sqlite = Return tt ->
  sqlite3.close sqlite = Return tt ->
  get_user_role sqlite username
  = Db.Build
      [Db_connect "student_portal.db"; Db_cursor;
       Db_execute "SELECT role FROM users WHERE username = ?" [username];
       Db_rollback; Db_close]
      (Raise e).
Proof.
  intros Hconnect Hcursor Hexecute Hrollback Hclose. db_unfold.
  now rewrite Hconnect, Hcursor, Hexecute, Hrollback, Hclose.
Qed.

End DatabaseFacts.

Lemma get_db_connection_settles_then_closes_witness :
  Db.trace
    (get_db_connection (sqlite_finding None)
       (Db.bind (Db.extern Db_fetchone (Return tt))
          (fun _ => @Db.raise unit (ValueError "bad row"))))
  = [Db_connect "student_portal.db"; Db_cursor; Db_fetchone; Db_rollback; Db_close].
Proof.
  apply (get_db_connection_settles_then_closes (sqlite_finding None)
           (Db.bind (Db.extern Db_fetchone (Return tt))
              (fun _ => @Db.raise unit (ValueError "bad row"))));
    reflexivity.
Defined.

Lemma get_db_connection_propagates_witness :
  Db.result
    (get_db_connection (sqlite_finding None) (@Db.raise unit (ValueError "bad row")))
  = Raise (ValueError "bad row")
  /\ Db.result (get_db_connection (sqlite_finding None) (Db.ret 7%nat)) = Return 7%nat.
Proof.
  split.
  - apply (get_db_connection_propagates (sqlite_finding None)
             (@Db.raise unit (ValueError "bad row"))); reflexivity.
  - apply (get_db_connection_propagates (sqlite_finding None) (Db.ret 7%nat));
      reflexivity.
Defined.

Lemma get_db_connection_cursor_failure_witness :
  get_db_connection sqlite_without_cursor (Db.ret tt)
  = Db.Build [Db_connect "student_portal.db"; Db_cursor]
      (Raise (LibraryError "unable to open database file")).
Proof.
  apply (get_db_connection_cursor_failure sqlite_without_cursor (Db.ret tt)
           (LibraryError "unable to open database file")); reflexivity.
Defined.

Lemma get_user_role_found_or_none_witness :
  Db.result (get_user_role (sqlite_finding (Some [Some "admin"])) "admin")
  = Return (Some "admin")
  /\ Db.result (get_user_role (sqlite_finding None) "nobody") = Return None.
Proof.
  split.
  - rewrite (get_user_role_found_or_none (sqlite_finding (Some [Some "admin"]))
               "admin" (Some [Some "admin"])); reflexivity.
  - rewrite (get_user_role_found_or_none (sqlite_finding None) "nobody" None);
      reflexivity.
Defined.

Lemma get_user_role_statement_failure_witness :
  get_user_role sqlite_refusing_statements "admin"
  = Db.Build
      [Db_connect "student_portal.db"; Db_cursor;
       Db_execute "SELECT role FROM users WHERE username = ?" ["admin"];
       Db_rollback; Db_close]
      (Raise (LibraryError "no such table: users")).
Proof.
  apply (get_user_role_statement_failure sqlite_refusing_statements "admin"
           (LibraryError "no such table: users")); reflexivity.
Defined.

(** ** The stages of a verification *)

(** X19: the verifier goes through its stages in order and stops at the
    first one that fails: stored bytes that cannot be read back keep the
    encoder from being entered, a photo that cannot be decoded keeps the
    detector from being called, a photo without a face keeps the
    comparison from being called, and the comparison, when it is
    reached, is the last call and is made on the stored array and the
    first detected embedding. *)
Theorem verify_stops_at_first_failing_stage
    (face_recognition : face_recognition_module) (byteorder : Binary64.byteorder)
    (stored photo : bytes) :
  stored <> [] ->
  photo <> [] ->
  (forall e : exception,
      np.frombuffer byteorder (Some stored) = Raise e ->
      Py.trace (recognize_face true face_recognition byteorder (Some stored) (Some photo))
      = [Call_frombuffer (Some stored)])
  /\ (forall (known : ndarray) (e : exception),
      np.frombuffer byteorder (Some stored) = Return known ->
      load_image_file face_recognition photo = Raise e ->
      Py.trace (recognize_face true face_recognition byteorder (Some stored) (Some photo))
      = [Call_frombuffer (Some stored);
         Call_get_face_encoding_from_photo (Some photo);
         Call_load_image_file photo])
  /\ (forall (known : ndarray) (img : image face_recognition),
      np.frombuffer byteorder (Some stored) = Return known ->
      load_image_file face_recognition photo = Return img ->
      face_encodings face_recognition img = Return [] ->
      Py.trace (recognize_face true face_recognition byteorder (Some stored) (Some photo))
      = [Call_frombuffer (Some stored);
         Call_get_face_encoding_from_photo (Some photo);
         Call_load_image_file photo;
         Call_face_encodings])
  /\ (forall (known : ndarray) (img : image face_recognition)
        (first : ndarray) (others : list ndarray),
      np.frombuffer byteorder (Some stored) = Return known ->
      load_image_file face_recognition photo = Return img ->
      face_encodings face_recognition img = Return (first :: others) ->
      Py.trace (recognize_face true face_recognition byteorder (Some stored) (Some photo))
      = [Call_frombuffer (Some stored);
         Call_get_face_encoding_from_photo (Some photo);
         Call_load_image_file photo;
         Call_face_encodings;
         Call_compare_faces [known] first]).
Proof.
  intros Hstored Hphoto.
  split; [|split; [|split]].
  - intros e Hknown.
    destruct stored as [| k ks]; [congruence|].
    destruct photo as [| p ps]; [congruence|].
    py_unfold. cbn [truthy negb orb BytesIO Py.result Py.trace].
    change (@Some (list Byte.byte) (k :: ks)) with (@Some bytes (k :: ks)) in *.
    rewrite Hknown. reflexivity.
  - intros known e Hknown Hload.
    destruct stored as [| k ks]; [congruence|].
    destruct photo as [| p ps]; [congruence|].
    py_unfold. cbn [truthy negb orb BytesIO Py.result Py.trace].
    change (@Some (list Byte.byte) (k :: ks)) with (@Some bytes (k :: ks)) in *.
    rewrite Hknown. cbn [Py.result Py.trace].
    rewrite Hload. reflexivity.
  - intros known img Hknown Hload Hfaces.
    destruct stored as [| k ks]; [congruence|].
    destruct photo as [| p ps]; [congruence|].
    py_unfold. cbn [truthy negb orb BytesIO Py.result Py.trace].
    change (@Some (list Byte.byte) (k :: ks)) with (@Some bytes (k :: ks)) in *.
    rewrite Hknown. cbn [Py.result Py.trace].
    rewrite Hload. cbn [Py.result Py.trace].
    rewrite Hfaces. reflexivity.
  - intros known img first others Hknown Hload Hfaces.
    now apply (verify_calls_in_order face_recognition byteorder stored photo
                 known img first others).
Qed.

Lemma verify_stops_at_first_failing_stage_witness :
  Py.trace (recognize_face true (detects (zeros 128)) Binary64.little (Some [x01]) (Some [x01]))
  = [Call_frombuffer (Some [x01])]
  /\ Py.trace
       (recognize_face true undecodable Binary64.little
          (Some (np.tobytes Binary64.little (zeros 128))) (Some [x01]))
     = [Call_frombuffer (Some (np.tobytes Binary64.little (zeros 128)));
        Call_get_face_encoding_from_photo (Some [x01]);
        Call_load_image_file [x01]].
Proof.
  split.
  - destruct (verify_stops_at_first_failing_stage (detects (zeros 128)) Binary64.little
                [x01] [x01]) as (Hread & _); [discriminate | discriminate |].
    apply (Hread (ValueError "buffer size must be a multiple of element size")).
    reflexivity.
  - destruct (verify_stops_at_first_failing_stage undecodable Binary64.little
                (np.tobytes Binary64.little (zeros 128)) [x01]) as (_ & Hdecode & _);
      [vm_compute; discriminate | discriminate |].
    apply (Hdecode (zeros 128) (LibraryError "cannot identify image file"));
      [apply npFacts.frombuffer_tobytes | reflexivity].
Defined.
